(** * Column-role classification and the remaining-quantity rule

    A shallow embedding of the decision logic of the four analysis paths of
    the repository:

    - [ExcelAnalyzer.analyze_with_pandas] and
      [ExcelAnalyzer.analyze_with_openpyxl] (excel_analyzer.py),
    - [AnalyzeExcelFiles] (the loop body of analyze_excel_files.py),
    - [AnalyzeWithOpenpyxl.analyze_excel_file] (analyze_with_openpyxl.py).

    Only what the scripts decide is modelled: the candidate lists, the
    descriptive statistics, the counts and percentages of the QuantityRem1
    rule and the exceptions the [try] block of each function catches.  The
    printed text itself is not modelled. *)

From Stdlib Require Import List Bool Arith ZArith QArith Lia.
From Stdlib Require Import Ascii String.
From Stdlib Require Import SpecFloat.
From Stdlib Require Import DecimalString DecimalNat Permutation.
Import ListNotations.

Local Close Scope Q_scope.
Local Open Scope nat_scope.
Local Open Scope string_scope.
Local Open Scope list_scope.

Set Implicit Arguments.

(** ** Exceptions

    Every function body runs inside [try: ... except Exception as e:], so a
    raised exception ends the body and is reported.  [result] is the outcome
    of a block of statements. *)

Inductive exn : Type :=
| TypeError
| ZeroDivisionError.

Inductive result (A : Type) : Type :=
| Ok (a : A)
| Raise (e : exn).

Arguments Ok {A} a.
Arguments Raise {A} e.

Definition bind {A B : Type} (m : result A) (k : A -> result B) : result B :=
  match m with
  | Ok a => k a
  | Raise e => Raise e
  end.

Notation "x <- m ;; k" := (bind m (fun x => k))
  (at level 61, m at next level, right associativity).

(** ** Strings

    Column names are text (data model: ordered sequence of strings).  They
    are modelled as sequences of 8-bit characters; [lower] is [str.lower] on
    such text: the letters A to Z go to a to z, everything else is kept. *)

Definition is_upper (c : ascii) : bool :=
  let n := nat_of_ascii c in (65 <=? n)%nat && (n <=? 90)%nat.

Definition lower_char (c : ascii) : ascii :=
  if is_upper c then ascii_of_nat (nat_of_ascii c + 32) else c.

Fixpoint lower (s : string) : string :=
  match s with
  | EmptyString => EmptyString
  | String c s' => String (lower_char c) (lower s')
  end.

(** [str_in x s] is Python's [x in s] on two strings: [x] occurs in [s] as a
    contiguous run of characters. *)
Fixpoint str_in (x s : string) : bool :=
  String.prefix x s ||
  match s with
  | EmptyString => false
  | String _ s' => str_in x s'
  end.

(** [any(x in name for x in keywords)]. *)
Definition any_in (name : string) (keywords : list string) : bool :=
  existsb (fun x => str_in x name) keywords.

(** A list comprehension [[col for col in cols if cond(col)]]: the loop
    appends each element that passes the condition to the list built so
    far. *)
Definition list_comp {A : Type} (cols : list A) (cond : A -> bool) : list A :=
  fold_left (fun acc col => if cond col then acc ++ [col] else acc) cols [].

(** Truth value of a string used as a condition ([col and ...]). *)
Definition truthy_str (s : string) : bool :=
  match s with
  | EmptyString => false
  | String _ _ => true
  end.

(** ** Data model *)

Inductive SemanticRole : Type :=
| ArticleNumber
| ProjectNumber
| Quantity
| Date
| Status.

Definition SemanticRole_eqb (r1 r2 : SemanticRole) : bool :=
  match r1, r2 with
  | ArticleNumber, ArticleNumber
  | ProjectNumber, ProjectNumber
  | Quantity, Quantity
  | Date, Date
  | Status, Status => true
  | _, _ => false
  end.

(** A cell value: null (None, or NaN in a frame), a number, text or a date
    (the date is kept as a day count; only its kind matters here). *)
Inductive cell : Type :=
| VNull
| VNum (q : Q)
| VText (s : string)
| VDate (d : Z).

(** One loaded spreadsheet: the header row and the data rows below it.  The
    slots of a row are positional; a slot that is missing reads as null. *)
Record TabularDataset : Type := mkDataset {
  columns : list string;
  rows : list (list cell)
}.

(** The candidate lists a function has bound when its analysis block ends,
    in the order of the assignments. *)
Definition classification : Type := list (SemanticRole * list string).

Fixpoint entry (role : SemanticRole) (c : classification) : option (list string) :=
  match c with
  | [] => None
  | (r, cands) :: c' => if SemanticRole_eqb role r then Some cands else entry role c'
  end.

(** [candidates[0]] guarded by [if candidates:], as in the recommendations. *)
Definition chosen (cands : list string) : option string :=
  match cands with
  | [] => None
  | c :: _ => Some c
  end.

(** The sentinel column of the fulfillment rule. *)
Definition sentinel : string := "QuantityRem1".

(** ['QuantityRem1' in df.columns] and ['QuantityRem1' in column_names]:
    membership by equality of the whole name. *)
Definition name_in (name : string) (cols : list string) : bool :=
  existsb (String.eqb name) cols.

(** [column_names.index(name)], zero-based; the position of the first
    occurrence.  Only called after [name_in] answered yes. *)
Fixpoint index_of (name : string) (cols : list string) : nat :=
  match cols with
  | [] => 0
  | c :: cols' => if String.eqb name c then 0 else S (index_of name cols')
  end.

(** ** Cell values under Python's operators *)

(** [value == 0]: true for a number equal to zero only; comparing None,
    text or a date with [0] by [==] answers False and never raises. *)
Definition eq0 (v : cell) : bool :=
  match v with
  | VNum q => Qeq_bool q 0
  | _ => false
  end.

(** [value > 0]: NaN compares False; text and dates cannot be ordered
    against an int and raise TypeError. *)
Definition gt0 (v : cell) : result bool :=
  match v with
  | VNull => Ok false
  | VNum q => Ok (negb (Qle_bool q 0))
  | VText _ => Raise TypeError
  | VDate _ => Raise TypeError
  end.

(** Truth value of a cell used as a condition. *)
Definition truthy (v : cell) : bool :=
  match v with
  | VNull => false
  | VNum q => negb (Qeq_bool q 0)
  | VText s => truthy_str s
  | VDate _ => true
  end.

(** ** binary64 arithmetic

    [a / b] on two ints is true division: it raises ZeroDivisionError when
    the divisor is zero and otherwise yields the double nearest to the
    quotient (both operands are row counts, far below 2^53, so each converts
    exactly).  [x * 100] multiplies by the double 100.0. *)

Definition prec : Z := 53.
Definition emax : Z := 1024.

Definition float_of_int (z : Z) : spec_float :=
  binary_normalize prec emax z 0 false.

Definition truediv (a b : Z) : result spec_float :=
  if (b =? 0)%Z then Raise ZeroDivisionError
  else Ok (SFdiv prec emax (float_of_int a) (float_of_int b)).

Definition fmul (x y : spec_float) : spec_float := SFmul prec emax x y.

(** The rational a double stands for (None on infinities and NaN). *)
Definition float_value (x : spec_float) : option Q :=
  match x with
  | S754_zero _ => Some 0%Q
  | S754_finite s m e =>
      Some ((if s then -1 else 1) * inject_Z (Zpos m) * Qpower 2 e)%Q
  | S754_infinity _ => None
  | S754_nan => None
  end.

(** [count/total*100] as written in the two print statements. *)
Definition percent (count total : nat) : result spec_float :=
  q <- truediv (Z.of_nat count) (Z.of_nat total) ;;
  Ok (fmul q (float_of_int 100)).

(** ** pandas frames

    [pd.read_excel] renames repeated headers (X, X.1, ...), so the labels of
    a frame it returns are distinct and [df[label]] is the one column under
    that label. *)

Definition frame_labels_distinct (df : TabularDataset) : Prop :=
  NoDup (columns df).

(** [len(df)] *)
Definition df_len (df : TabularDataset) : nat := List.length (rows df).

(** [df[label]]: the values of the column, one per row. *)
Definition getitem (df : TabularDataset) (label : string) : list cell :=
  map (fun row => nth (index_of label (columns df)) row VNull) (rows df).

(** [series == 0], element by element. *)
Definition series_eq0 (s : list cell) : list bool := map eq0 s.

(** [series > 0], element by element; the first value that cannot be
    compared raises. *)
Fixpoint series_gt0 (s : list cell) : result (list bool) :=
  match s with
  | [] => Ok []
  | v :: s' =>
      b <- gt0 v ;;
      bs <- series_gt0 s' ;;
      Ok (b :: bs)
  end.

(** [df[mask]]: the rows whose mask entry is True. *)
Definition select_rows (df : TabularDataset) (mask : list bool) : list (list cell) :=
  map fst (filter snd (combine (rows df) mask)).

(** [pd.api.types.is_numeric_dtype(series)]: read_excel gives a column a
    numeric dtype when it has at least one row and holds only numbers and
    blanks; a frame without rows has object columns. *)
Definition is_numeric_dtype (s : list cell) : bool :=
  match s with
  | [] => false
  | _ => forallb (fun v => match v with VNull | VNum _ => true | _ => false end) s
  end.

Definition numbers (s : list cell) : list Q :=
  flat_map (fun v => match v with VNum q => [q] | _ => [] end) s.

Definition Qmin_list (l : list Q) : option Q :=
  match l with
  | [] => None
  | q :: l' => Some (fold_left (fun m x => if Qle_bool x m then x else m) l' q)
  end.

Definition Qmax_list (l : list Q) : option Q :=
  match l with
  | [] => None
  | q :: l' => Some (fold_left (fun m x => if Qle_bool m x then x else m) l' q)
  end.

Definition Qmean_list (l : list Q) : option Q :=
  match l with
  | [] => None
  | _ => Some (fold_left Qplus l 0 / inject_Z (Z.of_nat (List.length l)))%Q
  end.

(** [series.min()], [series.max()], [series.mean()] over the values that are
    not null; None stands for the NaN of a column with no value.  The mean
    is kept exact. *)
Record Stats : Type := mkStats {
  stat_min : option Q;
  stat_max : option Q;
  stat_mean : option Q
}.

Definition describe (s : list cell) : Stats :=
  let l := numbers s in
  mkStats (Qmin_list l) (Qmax_list l) (Qmean_list l).

(** ** openpyxl worksheets

    Row 1 of the sheet is the header, the data rows follow from row 2;
    rows and columns are numbered from 1. *)

(** [sheet.max_row] *)
Definition max_row (sheet : TabularDataset) : nat := S (List.length (rows sheet)).

(** [sheet.cell(row=row, column=col).value] for a data row ([row >= 2]);
    a cell outside the stored data is None. *)
Definition sheet_cell (sheet : TabularDataset) (row col : nat) : cell :=
  nth (col - 1) (nth (row - 2) (rows sheet) []) VNull.

(** [range(a, b)] *)
Definition range (a b : nat) : list nat := seq a (b - a).

(** ** excel_analyzer.py *)

Module ExcelAnalyzer.

(** The statistics of the QuantityRem1 block of [analyze_with_pandas]. *)
Record RuleFinding : Type := mkFinding {
  zero_count : nat;
  non_zero_count : nat;
  total : nat;
  percent_zero : spec_float;
  percent_positive : spec_float
}.

(** [analyze_with_pandas], the block under COLUMN ANALYSIS: the five
    candidate lists and, for the numeric quantity candidates, the
    statistics printed next to them. *)
Definition column_analysis (df : TabularDataset)
  : classification * list (string * Stats) :=
  let article_candidates :=
    list_comp (columns df) (fun col =>
      any_in (lower col) ["art"; "item"; "artikel"; "material"; "nummer"]) in
  let project_candidates :=
    list_comp (columns df) (fun col =>
      any_in (lower col) ["proj"; "project"; "auftrag"; "order"]) in
  let qty_candidates :=
    list_comp (columns df) (fun col =>
      any_in (lower col) ["qty"; "quantity"; "menge"; "anzahl"; "rem"]) in
  let qty_stats :=
    flat_map (fun col =>
      if is_numeric_dtype (getitem df col)
      then [(col, describe (getitem df col))] else []) qty_candidates in
  let date_candidates :=
    list_comp (columns df) (fun col =>
      any_in (lower col) ["date"; "datum"; "termin"; "deadline"]) in
  let status_candidates :=
    list_comp (columns df) (fun col =>
      any_in (lower col) ["status"; "state"; "zustand"]) in
  ([(ArticleNumber, article_candidates);
    (ProjectNumber, project_candidates);
    (Quantity, qty_candidates);
    (Date, date_candidates);
    (Status, status_candidates)],
   qty_stats).

Definition classify (df : TabularDataset) : classification :=
  fst (column_analysis df).

(** [analyze_with_pandas], the block under "Special handling for Sales
    file". *)
Definition remaining_quantity_rule (df : TabularDataset)
  : result (option RuleFinding) :=
  if name_in sentinel (columns df) then
    let zero_count :=
      List.length (select_rows df (series_eq0 (getitem df sentinel))) in
    mask <- series_gt0 (getitem df sentinel) ;;
    let non_zero_count := List.length (select_rows df mask) in
    let total := df_len df in
    pz <- percent zero_count total ;;
    pp <- percent non_zero_count total ;;
    Ok (Some (mkFinding zero_count non_zero_count total pz pp))
  else Ok None.

Record Report : Type := mkReport {
  candidates : classification;
  quantity_stats : list (string * Stats);
  finding : option RuleFinding;
  use_article : option string;
  use_project : option string
}.

(** The body of the [try] of [analyze_with_pandas] from COLUMN ANALYSIS
    on; [Raise e] is the run that ends in the [except] branch. *)
Definition analyze_with_pandas (df : TabularDataset) : result Report :=
  let analysis := column_analysis df in
  f <- remaining_quantity_rule df ;;
  Ok (mkReport (fst analysis) (snd analysis) f
        (chosen (match entry ArticleNumber (fst analysis) with
                 | Some c => c | None => [] end))
        (chosen (match entry ProjectNumber (fst analysis) with
                 | Some c => c | None => [] end))).

(** [analyze_with_openpyxl], the fallback: the candidate lists it binds. *)
Definition classify_openpyxl (sheet : TabularDataset) : classification :=
  let column_names := columns sheet in
  let article_candidates :=
    list_comp column_names (fun col =>
      truthy_str col &&
      any_in (lower col) ["art"; "item"; "artikel"; "material"]) in
  let project_candidates :=
    list_comp column_names (fun col =>
      truthy_str col &&
      any_in (lower col) ["proj"; "project"; "auftrag"]) in
  let qty_candidates :=
    list_comp column_names (fun col =>
      truthy_str col &&
      any_in (lower col) ["qty"; "quantity"; "menge"; "anzahl"; "rem"]) in
  let date_candidates :=
    list_comp column_names (fun col =>
      truthy_str col &&
      any_in (lower col) ["date"; "datum"; "termin"]) in
  [(ArticleNumber, article_candidates);
   (ProjectNumber, project_candidates);
   (Quantity, qty_candidates);
   (Date, date_candidates)].

(** [analyze_with_openpyxl], "Check for QuantityRem1": the notice is
    printed or not; nothing is counted. *)
Definition quantity_rem1_notice (sheet : TabularDataset) : result (option unit) :=
  if name_in sentinel (columns sheet) then Ok (Some tt) else Ok None.

End ExcelAnalyzer.

(** ** analyze_excel_files.py *)

Module AnalyzeExcelFiles.

(** The block under COLUMN ANALYSIS of the loop body. *)
Definition classify (df : TabularDataset) : classification :=
  let article_candidates :=
    list_comp (columns df) (fun col =>
      any_in (lower col) ["art"; "item"; "artikel"; "material"]) in
  let project_candidates :=
    list_comp (columns df) (fun col =>
      any_in (lower col) ["proj"; "project"; "auftrag"]) in
  let qty_candidates :=
    list_comp (columns df) (fun col =>
      any_in (lower col) ["qty"; "quantity"; "menge"; "anzahl"]) in
  let date_candidates :=
    list_comp (columns df) (fun col =>
      any_in (lower col) ["date"; "datum"; "termin"]) in
  let status_candidates :=
    list_comp (columns df) (fun col =>
      any_in (lower col) ["status"; "state"; "zustand"]) in
  [(ArticleNumber, article_candidates);
   (ProjectNumber, project_candidates);
   (Quantity, qty_candidates);
   (Date, date_candidates);
   (Status, status_candidates)].

(** "Special check for Sales file": the two counts that are printed, the
    rows equal to zero first. *)
Definition remaining_quantity_rule (df : TabularDataset)
  : result (option (nat * nat)) :=
  if name_in sentinel (columns df) then
    let zero_count :=
      List.length (select_rows df (series_eq0 (getitem df sentinel))) in
    mask <- series_gt0 (getitem df sentinel) ;;
    Ok (Some (zero_count, List.length (select_rows df mask)))
  else Ok None.

End AnalyzeExcelFiles.

(** ** analyze_with_openpyxl.py *)

Module AnalyzeWithOpenpyxl.

(** [analyze_excel_file], the block under COLUMN ANALYSIS. *)
Definition classify (sheet : TabularDataset) : classification :=
  let column_names := columns sheet in
  let article_candidates :=
    list_comp column_names (fun col =>
      truthy_str col &&
      any_in (lower col) ["art"; "item"; "artikel"; "material"]) in
  let project_candidates :=
    list_comp column_names (fun col =>
      truthy_str col &&
      any_in (lower col) ["proj"; "project"; "auftrag"]) in
  let qty_candidates :=
    list_comp column_names (fun col =>
      truthy_str col &&
      any_in (lower col) ["qty"; "quantity"; "menge"; "anzahl"; "rem"]) in
  let date_candidates :=
    list_comp column_names (fun col =>
      truthy_str col &&
      any_in (lower col) ["date"; "datum"; "termin"]) in
  let status_candidates :=
    list_comp column_names (fun col =>
      truthy_str col &&
      any_in (lower col) ["status"; "state"; "zustand"]) in
  [(ArticleNumber, article_candidates);
   (ProjectNumber, project_candidates);
   (Quantity, qty_candidates);
   (Date, date_candidates);
   (Status, status_candidates)].

(** One turn of the counting loop on the value of the cell. *)
Definition count_cell (counts : nat * nat) (cell_value : cell)
  : result (nat * nat) :=
  let (zero_count, non_zero_count) := counts in
  if eq0 cell_value then Ok (S zero_count, non_zero_count)
  else if truthy cell_value then
    positive <- gt0 cell_value ;;
    Ok (if positive then (zero_count, S non_zero_count)
        else (zero_count, non_zero_count))
  else Ok (zero_count, non_zero_count).

(** [for row in rows_to_visit: ...] with the two counters as state. *)
Fixpoint count_loop (sheet : TabularDataset) (qty_rem_col : nat)
    (rows_to_visit : list nat) (counts : nat * nat) : result (nat * nat) :=
  match rows_to_visit with
  | [] => Ok counts
  | row :: rest =>
      counts' <- count_cell counts (sheet_cell sheet row qty_rem_col) ;;
      count_loop sheet qty_rem_col rest counts'
  end.

(** "Special check for QuantityRem1": the sheet rows
    [range(2, min(1000, sheet.max_row + 1))] are visited. *)
Definition remaining_quantity_rule (sheet : TabularDataset)
  : result (option (nat * nat)) :=
  if name_in sentinel (columns sheet) then
    let qty_rem_col := index_of sentinel (columns sheet) + 1 in
    counts <- count_loop sheet qty_rem_col
                (range 2 (Nat.min 1000 (max_row sheet + 1))) (0, 0) ;;
    Ok (Some counts)
  else Ok None.

End AnalyzeWithOpenpyxl.

(** ** The properties, in the words of the specification *)

(** Two characters are the same letter when they agree after case folding. *)
Definition same_letterb (a b : ascii) : bool :=
  Ascii.eqb (lower_char a) (lower_char b).

(** [keyword] is read off the front of [name], letter case ignored. *)
Fixpoint prefix_ci (keyword name : string) : bool :=
  match keyword, name with
  | EmptyString, _ => true
  | String a keyword', String b name' =>
      same_letterb a b && prefix_ci keyword' name'
  | String _ _, EmptyString => false
  end.

(** [name] contains [keyword] as a case-insensitive substring. *)
Fixpoint contains_ci (keyword name : string) : bool :=
  prefix_ci keyword name ||
  match name with
  | EmptyString => false
  | String _ name' => contains_ci keyword name'
  end.

(** A name matches a keyword set when it contains any of its keywords. *)
Definition name_matches (keywords : list string) (name : string) : bool :=
  existsb (fun kw => contains_ci kw name) keywords.

(** The same relation on whole strings, as a proposition. *)
Inductive eq_ignoring_case : string -> string -> Prop :=
| eic_empty : eq_ignoring_case EmptyString EmptyString
| eic_letter (a b : ascii) (s t : string) :
    lower_char a = lower_char b ->
    eq_ignoring_case s t ->
    eq_ignoring_case (String a s) (String b t).

(** The keyword table of the classifier (section 4.1). *)
Definition full_keywords (role : SemanticRole) : list string :=
  match role with
  | ArticleNumber => ["art"; "item"; "artikel"; "material"; "nummer"]
  | ProjectNumber => ["proj"; "project"; "auftrag"; "order"]
  | Quantity => ["qty"; "quantity"; "menge"; "anzahl"; "rem"]
  | Date => ["date"; "datum"; "termin"; "deadline"]
  | Status => ["status"; "state"; "zustand"]
  end.

(** The keyword lists written out in analyze_excel_files.py. *)
Definition short_keywords (role : SemanticRole) : list string :=
  match role with
  | ArticleNumber => ["art"; "item"; "artikel"; "material"]
  | ProjectNumber => ["proj"; "project"; "auftrag"]
  | Quantity => ["qty"; "quantity"; "menge"; "anzahl"]
  | Date => ["date"; "datum"; "termin"]
  | Status => ["status"; "state"; "zustand"]
  end.

(** "the value is present and numerically equal to 0" *)
Definition is_zero (v : cell) : Prop :=
  exists q, v = VNum q /\ (q == 0)%Q.

(** "the value is present and numerically greater than 0" *)
Definition is_positive (v : cell) : Prop :=
  exists q, v = VNum q /\ (0 < q)%Q.

Definition is_zerob (v : cell) : bool :=
  match v with
  | VNum q => Qeq_bool q 0
  | _ => false
  end.

Definition is_positiveb (v : cell) : bool :=
  match v with
  | VNum q => negb (Qle_bool q 0)
  | _ => false
  end.

(** The number of the values that pass a test. *)
Definition count (p : cell -> bool) (values : list cell) : nat :=
  List.length (filter p values).

(** A value that is absent or a number. *)
Definition null_or_number (v : cell) : bool :=
  match v with
  | VNull | VNum _ => true
  | VText _ | VDate _ => false
  end.

(** A value the counting loop of analyze_with_openpyxl.py passes over
    without comparing it by [>]: absent, a number, or empty text. *)
Definition countable (v : cell) : bool :=
  match v with
  | VNull | VNum _ => true
  | VText s => negb (truthy_str s)
  | VDate _ => false
  end.

Definition is_nullb (v : cell) : bool :=
  match v with
  | VNull => true
  | _ => false
  end.

(** The values of the sentinel column, one per data row. *)
Definition sentinel_values (ds : TabularDataset) : list cell :=
  getitem ds sentinel.

(** The scenario of section 8: three columns, two rows. *)
Definition scenario : TabularDataset :=
  mkDataset ["ArtikelNr"; "QuantityRem1"; "Status"]
    [[VText "A1"; VNum 0; VText "closed"];
     [VText "A2"; VNum 5; VText "open"]].

(** The columns of the scenario over other row values. *)
Definition scenario_other_rows : TabularDataset :=
  mkDataset ["ArtikelNr"; "QuantityRem1"; "Status"]
    [[VNull; VNum 7; VNull]].

(** A sheet whose only column is named Status. *)
Definition status_only : TabularDataset :=
  mkDataset ["Status"] [].

(** A sheet whose only column is named Deadline. *)
Definition deadline_only : TabularDataset :=
  mkDataset ["Deadline"] [].

(** Two quantity columns, neither named exactly as the sentinel. *)
Definition near_miss : TabularDataset :=
  mkDataset ["quantityrem1"; "QuantityRem"] [[VNum 0; VNum 0]].

(** A sheet with the sentinel column and no data row. *)
Definition header_only : TabularDataset :=
  mkDataset ["QuantityRem1"] [].

(** A sheet whose only sentinel value is text (a text that both loaders
    deliver as text). *)
Definition text_in_quantity : TabularDataset :=
  mkDataset ["QuantityRem1"] [[VText "offen"]].

(** A sheet of 1001 data rows, each with remaining quantity zero. *)
Definition long_sheet : TabularDataset :=
  mkDataset ["QuantityRem1"] (repeat [VNum 0] 1001).

(** ** Headers, sample data and sample values

    The parts of the analysis functions around the candidate lists: how the
    openpyxl paths name the columns, which cells the SAMPLE DATA blocks
    show, and how a shown value is cut. *)

(** [f"{n}"] for a column number. *)
Definition decimal (n : nat) : string :=
  NilEmpty.string_of_uint (Nat.to_uint n).

(** "Get column names from first row" of [analyze_excel_file] and of the
    fallback [analyze_with_openpyxl]: the header cell of each sheet column,
    and [Column_<n>] where that cell is empty.  [header] is row 1 of the
    sheet, [None] for an empty cell. *)
Definition column_names (max_column : nat) (header : list (option string))
  : list string :=
  map (fun col =>
         match nth (col - 1) header None with
         | Some cell_value => cell_value
         | None => ("Column_" ++ decimal col)%string
         end)
      (range 1 (max_column + 1)).

(** "Truncate long values": [if len(value_str) > limit: value_str =
    value_str[:limit] + "..."]; the limit is 60 in excel_analyzer.py and 50
    in analyze_with_openpyxl.py. *)
Definition truncate (limit : nat) (value_str : string) : string :=
  if Nat.ltb limit (String.length value_str)
  then (substring 0 limit value_str ++ "...")%string
  else value_str.

(** [pd.notna(value)] and [cell_value is not None]. *)
Definition notna (v : cell) : bool := negb (is_nullb v).

(** [enumerate(column_names, 1)] *)
Definition enumerate1 {A : Type} (l : list A) : list (nat * A) :=
  combine (seq 1 (List.length l)) l.

(** SAMPLE DATA of [analyze_with_pandas]: for each of the rows
    [range(min(5, len(df)))] the cells [df.iloc[idx][col]] that are not
    null, under their column label. *)
Definition pandas_sample (df : TabularDataset) : list (list (string * cell)) :=
  map (fun idx =>
         flat_map (fun col =>
                     let value :=
                       nth (index_of col (columns df))
                           (nth idx (rows df) []) VNull in
                     if notna value then [(col, value)] else [])
                  (columns df))
      (range 0 (Nat.min 5 (df_len df))).

(** The sample block of the two openpyxl functions: the sheet rows
    [range(2, min(6, sheet.max_row) + 1)], each cell that is not None under
    the name of its column. *)
Definition openpyxl_sample (sheet : TabularDataset)
  : list (list (string * cell)) :=
  let max_rows := Nat.min 6 (max_row sheet) in
  map (fun row =>
         flat_map (fun numbered : nat * string =>
                     let (col_idx, col_name) := numbered in
                     let cell_value := sheet_cell sheet row col_idx in
                     if notna cell_value then [(col_name, cell_value)] else [])
                  (enumerate1 (columns sheet)))
      (range 2 (max_rows + 1)).

(** The cells of one data row that a sample block shows: slot by slot
    against the column names, the null ones left out. *)
Definition shown (cols : list string) (row : list cell) : list (string * cell) :=
  filter (fun named => notna (snd named))
         (combine cols (map (fun j => nth j row VNull) (seq 0 (List.length cols)))).

(** [series.dropna()] *)
Definition dropna (s : list cell) : list cell :=
  filter notna s.

(** [df[col].dropna().iloc[0] if len(df[col].dropna()) > 0 else "N/A"];
    [None] stands for the text N/A. *)
Definition sample_val (s : list cell) : option cell :=
  if Nat.ltb 0 (List.length (dropna s)) then Some (nth 0 (dropna s) VNull) else None.

(** ** One workbook through the two loaders

    The openpyxl functions see the cells as the workbook stores them.
    [pd.read_excel], called with its default arguments, turns the texts of
    [na_values] into NaN.  When the header cells are all filled and
    distinct both loaders give the columns the same names. *)

(** The texts [pd.read_excel] reads as NaN by default. *)
Definition na_values : list string :=
  [EmptyString; "#N/A"; "#N/A N/A"; "#NA"; "-1.#IND"; "-1.#QNAN"; "-NaN";
   "-nan"; "1.#IND"; "1.#QNAN"; "<NA>"; "N/A"; "NA"; "NULL"; "NaN"; "None";
   "n/a"; "nan"; "null"].

(** A stored cell as it arrives in the frame. *)
Definition read_cell (v : cell) : cell :=
  match v with
  | VText s => if name_in s na_values then VNull else VText s
  | _ => v
  end.

(** The same dataset with every cell passed through [g]. *)
Definition with_cells (g : cell -> cell) (ds : TabularDataset) : TabularDataset :=
  mkDataset (columns ds) (map (map g) (rows ds)).

(** [df] is the frame [pd.read_excel] returns for the workbook that
    openpyxl presents as [sheet], for a header that is filled and distinct. *)
Definition frame_of_sheet (sheet df : TabularDataset) : Prop :=
  columns df = columns sheet /\ rows df = map (map read_cell) (rows sheet).

(** A frame holds no text that [pd.read_excel] would have turned into NaN. *)
Definition frame_cells_as_read (df : TabularDataset) : Prop :=
  Forall (Forall (fun v => read_cell v = v)) (rows df).


(** The keyword lists written out in analyze_with_openpyxl.py; the
    fallback of excel_analyzer.py has the first four of them. *)
Definition sheet_keywords (role : SemanticRole) : list string :=
  match role with
  | ArticleNumber => ["art"; "item"; "artikel"; "material"]
  | ProjectNumber => ["proj"; "project"; "auftrag"]
  | Quantity => ["qty"; "quantity"; "menge"; "anzahl"; "rem"]
  | Date => ["date"; "datum"; "termin"]
  | Status => ["status"; "state"; "zustand"]
  end.

Definition is_digit (c : ascii) : bool :=
  let n := nat_of_ascii c in (48 <=? n)%nat && (n <=? 57)%nat.

Fixpoint all_digits (s : string) : bool :=
  match s with
  | EmptyString => true
  | String c s' => is_digit c && all_digits s'
  end.

(** 998 rows with remaining quantity zero followed by one whose quantity
    is a text that both loaders deliver as text. *)
Definition late_text_sheet : TabularDataset :=
  mkDataset ["QuantityRem1"] (repeat [VNum 0] 998 ++ [[VText "offen"]]).

(** 1000 rows with remaining quantity zero. *)
Definition thousand_rows : TabularDataset :=
  mkDataset ["QuantityRem1"] (repeat [VNum 0] 1000).

(** The same rows followed by one whose quantity is text. *)
Definition thousand_rows_then_text : TabularDataset :=
  mkDataset ["QuantityRem1"] (repeat [VNum 0] 1000 ++ [[VText "offen"]]).

(** A sales sheet whose remaining-quantity column is blank. *)
Definition blank_quantity : TabularDataset :=
  mkDataset ["ArtikelNr"; "QuantityRem1"]
    [[VText "A1"; VNull]; [VText "A2"; VNull]; [VText "A3"; VNull]].


(** A worksheet with a remaining-quantity cell that holds the text n/a. *)
Definition na_text_quantity : TabularDataset :=
  mkDataset ["QuantityRem1"] [[VText "n/a"]; [VNum 4]].

(** A double that is zero, finite or infinite with the sign bit clear. *)
Definition nonneg_float (x : spec_float) : bool :=
  match x with
  | S754_zero s => negb s
  | S754_finite s _ _ => negb s
  | S754_infinity s => negb s
  | S754_nan => false
  end.

(** ** Strings: lowering and searching *)

Lemma list_comp_from {A : Type} (cond : A -> bool) (cols acc : list A) :
  fold_left (fun acc col => if cond col then acc ++ [col] else acc) cols acc
  = acc ++ filter cond cols.
Proof.
  revert acc.
  induction cols as [|c cols IH]; intro acc; simpl.
  - now rewrite app_nil_r.
  - rewrite IH. destruct (cond c); [|reflexivity].
    now rewrite <- app_assoc.
Qed.

Lemma list_comp_filter {A : Type} (cols : list A) (cond : A -> bool) :
  list_comp cols cond = filter cond cols.
Proof.
  unfold list_comp. now rewrite list_comp_from.
Qed.

Lemma prefix_lower_ci (kw : string) :
  lower kw = kw ->
  forall name, String.prefix kw (lower name) = prefix_ci kw name.
Proof.
  induction kw as [|a kw IH]; intros Hkw name.
  - now destruct name.
  - simpl in Hkw. injection Hkw as Ha Hkw'.
    destruct name as [|b name]; simpl; [reflexivity|].
    unfold same_letterb. rewrite Ha.
    destruct (ascii_dec a (lower_char b)) as [E|N].
    + rewrite (proj2 (Ascii.eqb_eq _ _) E). simpl. now apply IH.
    + apply Ascii.eqb_neq in N. now rewrite N.
Qed.

Lemma str_in_lower_ci (kw : string) :
  lower kw = kw ->
  forall name, str_in kw (lower name) = contains_ci kw name.
Proof.
  intros Hkw name.
  induction name as [|b name IH].
  - change (str_in kw (lower EmptyString))
      with (String.prefix kw (lower EmptyString) || false).
    change (contains_ci kw EmptyString)
      with (prefix_ci kw EmptyString || false).
    now rewrite (prefix_lower_ci Hkw EmptyString).
  - change (lower (String b name)) with (String (lower_char b) (lower name)).
    cbn [str_in contains_ci].
    rewrite IH.
    change (String (lower_char b) (lower name)) with (lower (String b name)).
    now rewrite (prefix_lower_ci Hkw).
Qed.

Lemma any_in_lower_matches (kws : list string) (name : string) :
  Forall (fun kw => lower kw = kw) kws ->
  any_in (lower name) kws = name_matches kws name.
Proof.
  intros H. unfold any_in, name_matches.
  induction H as [|kw kws Hkw _ IH]; simpl; [reflexivity|].
  now rewrite IH, (str_in_lower_ci Hkw).
Qed.

Lemma full_keywords_lower (role : SemanticRole) :
  Forall (fun kw => lower kw = kw) (full_keywords role).
Proof.
  destruct role; repeat constructor.
Qed.

Lemma short_keywords_lower (role : SemanticRole) :
  Forall (fun kw => lower kw = kw) (short_keywords role).
Proof.
  destruct role; repeat constructor.
Qed.

Lemma eq_ignoring_case_lower (s t : string) :
  eq_ignoring_case s t <-> lower s = lower t.
Proof.
  split.
  - induction 1 as [|a b s t Hab _ IH]; simpl; [reflexivity|].
    now rewrite Hab, IH.
  - revert t. induction s as [|a s IH]; intros [|b t] H; simpl in H;
      try discriminate.
    + constructor.
    + injection H as Hab Hst. constructor; auto.
Qed.

Lemma prefix_ci_iff (kw name : string) :
  prefix_ci kw name = true <->
  exists mid post, name = (mid ++ post)%string /\ eq_ignoring_case mid kw.
Proof.
  revert name. induction kw as [|a kw IH]; intro name.
  - split; [|reflexivity].
    intros _. exists EmptyString, name. split; [reflexivity|constructor].
  - destruct name as [|b name]; simpl.
    + split; [discriminate|].
      intros (mid & post & E & H). inversion H; subst. discriminate.
    + unfold same_letterb. rewrite andb_true_iff, Ascii.eqb_eq, IH.
      split.
      * intros (Hab & mid & post & E & H).
        exists (String b mid), post. split.
        -- simpl. now rewrite E.
        -- constructor; auto.
      * intros (mid & post & E & H). inversion H; subst.
        simpl in E. injection E as Eb En. subst.
        split; [congruence|]. eauto.
Qed.

Lemma contains_ci_iff (kw name : string) :
  contains_ci kw name = true <->
  exists pre mid post,
    name = (pre ++ mid ++ post)%string /\ eq_ignoring_case mid kw.
Proof.
  induction name as [|b name IH].
  - change (contains_ci kw EmptyString) with (prefix_ci kw EmptyString || false).
    rewrite orb_false_r, prefix_ci_iff. split.
    + intros (mid & post & E & H). exists EmptyString, mid, post. auto.
    + intros (pre & mid & post & E & H).
      destruct pre; [|discriminate]. simpl in E. exists mid, post. auto.
  - cbn [contains_ci]. rewrite orb_true_iff, IH, prefix_ci_iff. split.
    + intros [(mid & post & E & H)|(pre & mid & post & E & H)].
      * exists EmptyString, mid, post. auto.
      * exists (String b pre), mid, post. split; [|assumption].
        simpl. now rewrite E.
    + intros (pre & mid & post & E & H). destruct pre as [|c pre].
      * left. simpl in E. exists mid, post. auto.
      * right. simpl in E. injection E as _ E. exists pre, mid, post. auto.
Qed.

Lemma name_matches_iff (kws : list string) (name : string) :
  name_matches kws name = true <->
  exists kw, In kw kws /\ contains_ci kw name = true.
Proof.
  unfold name_matches. now rewrite existsb_exists.
Qed.

(** ** The candidate lists of each path *)

Lemma comp_matches (kws : list string) (cols : list string) :
  Forall (fun kw => lower kw = kw) kws ->
  list_comp cols (fun col => any_in (lower col) kws)
  = filter (name_matches kws) cols.
Proof.
  intros H. rewrite list_comp_filter.
  apply filter_ext. intro col. now apply any_in_lower_matches.
Qed.

Lemma pandas_entry (df : TabularDataset) (role : SemanticRole) :
  entry role (ExcelAnalyzer.classify df)
  = Some (filter (name_matches (full_keywords role)) (columns df)).
Proof.
  unfold ExcelAnalyzer.classify, ExcelAnalyzer.column_analysis.
  destruct role; cbn [fst entry SemanticRole_eqb full_keywords]; f_equal;
    apply comp_matches; repeat constructor.
Qed.

Lemma script_entry (df : TabularDataset) (role : SemanticRole) :
  entry role (AnalyzeExcelFiles.classify df)
  = Some (filter (name_matches (short_keywords role)) (columns df)).
Proof.
  unfold AnalyzeExcelFiles.classify.
  destruct role; cbn [entry SemanticRole_eqb short_keywords]; f_equal;
    apply comp_matches; repeat constructor.
Qed.

(** The three paths that bind all five candidate lists. *)
Lemma five_entries (ds : TabularDataset) (role : SemanticRole) :
  (exists c, entry role (ExcelAnalyzer.classify ds) = Some c) /\
  (exists c, entry role (AnalyzeExcelFiles.classify ds) = Some c) /\
  (exists c, entry role (AnalyzeWithOpenpyxl.classify ds) = Some c).
Proof.
  rewrite pandas_entry, script_entry.
  repeat split; try (eexists; reflexivity).
  destruct role; eexists; reflexivity.
Qed.

Lemma fallback_entries (ds : TabularDataset) (role : SemanticRole) :
  role <> Status ->
  exists c, entry role (ExcelAnalyzer.classify_openpyxl ds) = Some c.
Proof.
  intro H. destruct role; try (eexists; reflexivity). now elim H.
Qed.

(** ** Counting *)

Lemma is_zerob_iff (v : cell) : is_zerob v = true <-> is_zero v.
Proof.
  unfold is_zero. destruct v as [|q|s|d]; simpl.
  - split; [discriminate|]. intros (q & E & _). discriminate.
  - rewrite Qeq_bool_iff. split.
    + intro H. exists q. auto.
    + intros (q' & E & H). now injection E as ->.
  - split; [discriminate|]. intros (q & E & _). discriminate.
  - split; [discriminate|]. intros (q & E & _). discriminate.
Qed.

Lemma positive_test (q : Q) : negb (Qle_bool q 0) = true <-> (0 < q)%Q.
Proof.
  rewrite negb_true_iff. split.
  - intro H. apply Qnot_le_lt. intro L.
    apply Qle_bool_iff in L. congruence.
  - intro H. destruct (Qle_bool q 0) eqn:E; [|reflexivity].
    apply Qle_bool_iff in E. exfalso. now apply (Qlt_not_le 0 q).
Qed.

Lemma is_positiveb_iff (v : cell) : is_positiveb v = true <-> is_positive v.
Proof.
  unfold is_positive. destruct v as [|q|s|d]; simpl.
  - split; [discriminate|]. intros (q & E & _). discriminate.
  - rewrite positive_test. split.
    + intro H. exists q. auto.
    + intros (q' & E & H). now injection E as ->.
  - split; [discriminate|]. intros (q & E & _). discriminate.
  - split; [discriminate|]. intros (q & E & _). discriminate.
Qed.

Lemma zero_not_positive (v : cell) :
  is_zerob v = true -> is_positiveb v = false.
Proof.
  destruct v as [|q|s|d]; simpl; try discriminate.
  intro H. apply Qeq_bool_iff in H.
  apply negb_false_iff, Qle_bool_iff. rewrite H. apply Qle_refl.
Qed.

(** Two tests that exclude each other count at most every value once, and
    reach the length only when each value passes one of them. *)
Lemma two_buckets (values : list cell) :
  count is_zerob values + count is_positiveb values <= List.length values /\
  (count is_zerob values + count is_positiveb values = List.length values ->
   Forall (fun v => is_zero v \/ is_positive v) values).
Proof.
  unfold count.
  induction values as [|v values [IHle IHeq]]; simpl.
  - split; [lia|constructor].
  - destruct (is_zerob v) eqn:Ez.
    + rewrite (zero_not_positive v Ez). simpl. split; [lia|].
      intro H. constructor.
      * left. now apply is_zerob_iff.
      * apply IHeq. lia.
    + destruct (is_positiveb v) eqn:Ep; simpl.
      * split; [lia|]. intro H. constructor.
        -- right. now apply is_positiveb_iff.
        -- apply IHeq. lia.
      * split; [lia|]. intro H. exfalso. lia.
Qed.

Lemma count_le_length (p : cell -> bool) (values : list cell) :
  count p values <= List.length values.
Proof.
  unfold count. apply filter_length_le.
Qed.

(** *** Frames *)

Lemma select_rows_length (df : TabularDataset) (f : list cell -> cell)
    (p : cell -> bool) :
  List.length (select_rows df (map p (map f (rows df))))
  = count p (map f (rows df)).
Proof.
  unfold select_rows, count. rewrite length_map.
  induction (rows df) as [|row l IH]; simpl; [reflexivity|].
  destruct (p (f row)); simpl; now rewrite IH.
Qed.

Lemma series_gt0_spec (s : list cell) :
  series_gt0 s =
  if forallb null_or_number s then Ok (map is_positiveb s)
  else Raise TypeError.
Proof.
  induction s as [|v s IH]; simpl; [reflexivity|].
  destruct v as [|q|t|d]; simpl; try reflexivity;
    rewrite IH; now destruct (forallb null_or_number s).
Qed.

Lemma percent_spec (count total : nat) :
  percent count total =
  match total with
  | 0 => Raise ZeroDivisionError
  | S _ => Ok (fmul (SFdiv prec emax (float_of_int (Z.of_nat count))
                       (float_of_int (Z.of_nat total)))
                 (float_of_int 100))
  end.
Proof.
  unfold percent, truediv. destruct total; [reflexivity|].
  replace (Z.of_nat (S total) =? 0)%Z with false; [reflexivity|].
  symmetry. apply Z.eqb_neq. lia.
Qed.

Lemma name_in_iff (name : string) (cols : list string) :
  name_in name cols = true <-> In name cols.
Proof.
  unfold name_in. rewrite existsb_exists. split.
  - intros (c & Hin & E). apply String.eqb_eq in E. now subst.
  - intro H. exists name. split; [assumption|apply String.eqb_refl].
Qed.

(** What [analyze_with_pandas] makes of the rule, case by case. *)
Lemma pandas_rule_spec (df : TabularDataset) :
  ExcelAnalyzer.remaining_quantity_rule df =
  if name_in sentinel (columns df) then
    if forallb null_or_number (sentinel_values df) then
      match rows df with
      | [] => Raise ZeroDivisionError
      | _ :: _ =>
          let z := count is_zerob (sentinel_values df) in
          let p := count is_positiveb (sentinel_values df) in
          let n := List.length (rows df) in
          Ok (Some (ExcelAnalyzer.mkFinding z p n
                (fmul (SFdiv prec emax (float_of_int (Z.of_nat z))
                         (float_of_int (Z.of_nat n))) (float_of_int 100))
                (fmul (SFdiv prec emax (float_of_int (Z.of_nat p))
                         (float_of_int (Z.of_nat n))) (float_of_int 100))))
      end
    else Raise TypeError
  else Ok None.
Proof.
  unfold ExcelAnalyzer.remaining_quantity_rule, sentinel_values.
  destruct (name_in sentinel (columns df)); [|reflexivity].
  rewrite series_gt0_spec.
  destruct (forallb null_or_number (getitem df sentinel)); [|reflexivity].
  cbn [bind]. unfold series_eq0, getitem, df_len.
  rewrite !select_rows_length, !percent_spec.
  destruct (rows df) as [|row l]; reflexivity.
Qed.

Lemma script_rule_spec (df : TabularDataset) :
  AnalyzeExcelFiles.remaining_quantity_rule df =
  if name_in sentinel (columns df) then
    if forallb null_or_number (sentinel_values df) then
      Ok (Some (count is_zerob (sentinel_values df),
                count is_positiveb (sentinel_values df)))
    else Raise TypeError
  else Ok None.
Proof.
  unfold AnalyzeExcelFiles.remaining_quantity_rule, sentinel_values.
  destruct (name_in sentinel (columns df)); [|reflexivity].
  rewrite series_gt0_spec.
  destruct (forallb null_or_number (getitem df sentinel)); [|reflexivity].
  cbn [bind]. unfold series_eq0, getitem.
  now rewrite !select_rows_length.
Qed.

(** *** The counting loop over a worksheet *)

Lemma count_cell_spec (counts : nat * nat) (v : cell) :
  AnalyzeWithOpenpyxl.count_cell counts v =
  if countable v then
    Ok (fst counts + (if is_zerob v then 1 else 0),
        snd counts + (if is_positiveb v then 1 else 0))
  else Raise TypeError.
Proof.
  destruct counts as [z nz]. unfold AnalyzeWithOpenpyxl.count_cell.
  destruct v as [|q|s|d]; simpl.
  - now rewrite !Nat.add_0_r.
  - destruct (Qeq_bool q 0) eqn:E; simpl.
    + pose proof (zero_not_positive (VNum q) E) as P. simpl in P.
      rewrite P. now rewrite Nat.add_0_r, Nat.add_1_r.
    + destruct (negb (Qle_bool q 0));
        now rewrite ?Nat.add_0_r, ?Nat.add_1_r.
  - destruct s; simpl; [|reflexivity]. now rewrite !Nat.add_0_r.
  - reflexivity.
Qed.

Lemma count_loop_spec (sheet : TabularDataset) (col : nat)
    (visited : list nat) (counts : nat * nat) :
  AnalyzeWithOpenpyxl.count_loop sheet col visited counts =
  let values := map (fun row => sheet_cell sheet row col) visited in
  if forallb countable values then
    Ok (fst counts + count is_zerob values,
        snd counts + count is_positiveb values)
  else Raise TypeError.
Proof.
  revert counts. unfold count.
  induction visited as [|row rest IH]; intro counts; simpl.
  - destruct counts. now rewrite !Nat.add_0_r.
  - rewrite count_cell_spec.
    destruct (countable (sheet_cell sheet row col)); [|reflexivity].
    cbn [bind andb]. rewrite IH. cbn zeta.
    destruct (forallb countable _); [|reflexivity].
    cbn [fst snd].
    destruct (is_zerob (sheet_cell sheet row col)),
             (is_positiveb (sheet_cell sheet row col));
      simpl; f_equal; f_equal; lia.
Qed.

Lemma cells_below (g : list cell -> cell) (l : list (list cell))
    (first k : nat) :
  k <= List.length l ->
  map (fun row => g (nth (row - first) l [])) (seq first k)
  = firstn k (map g l).
Proof.
  revert first k.
  induction l as [|a l IH]; intros first k Hk; simpl in Hk.
  - replace k with 0 by lia. reflexivity.
  - destruct k as [|k]; [reflexivity|]. simpl.
    rewrite Nat.sub_diag. f_equal.
    rewrite <- (IH (S first) k) by lia.
    apply map_ext_in. intros row Hrow. apply in_seq in Hrow.
    replace (row - first) with (S (row - S first)) by lia.
    reflexivity.
Qed.

Lemma firstn_min_length {A : Type} (k : nat) (l : list A) :
  firstn (Nat.min k (List.length l)) l = firstn k l.
Proof.
  destruct (Nat.le_ge_cases k (List.length l)) as [H|H].
  - now rewrite Nat.min_l.
  - rewrite Nat.min_r by assumption.
    now rewrite firstn_all, firstn_all2.
Qed.

(** The cells the loop reads are the first 998 values of the column. *)
Lemma visited_cells (sheet : TabularDataset) :
  map (fun row =>
         sheet_cell sheet row (index_of sentinel (columns sheet) + 1))
      (range 2 (Nat.min 1000 (max_row sheet + 1)))
  = firstn 998 (sentinel_values sheet).
Proof.
  unfold range, max_row, sentinel_values, getitem, sheet_cell.
  replace (index_of sentinel (columns sheet) + 1 - 1)
    with (index_of sentinel (columns sheet)) by lia.
  replace (Nat.min 1000 (S (List.length (rows sheet)) + 1) - 2)
    with (Nat.min 998 (List.length (rows sheet))) by lia.
  rewrite (cells_below
             (fun row => nth (index_of sentinel (columns sheet)) row VNull))
    by apply Nat.le_min_r.
  rewrite <- (length_map
                (fun row => nth (index_of sentinel (columns sheet)) row VNull)
                (rows sheet)).
  apply firstn_min_length.
Qed.

Lemma openpyxl_rule_spec (sheet : TabularDataset) :
  AnalyzeWithOpenpyxl.remaining_quantity_rule sheet =
  if name_in sentinel (columns sheet) then
    let values := firstn 998 (sentinel_values sheet) in
    if forallb countable values then
      Ok (Some (count is_zerob values, count is_positiveb values))
    else Raise TypeError
  else Ok None.
Proof.
  unfold AnalyzeWithOpenpyxl.remaining_quantity_rule.
  destruct (name_in sentinel (columns sheet)); [|reflexivity].
  rewrite count_loop_spec, visited_cells. cbn zeta.
  destruct (forallb countable _); reflexivity.
Qed.

Lemma sentinel_values_length (ds : TabularDataset) :
  List.length (sentinel_values ds) = List.length (rows ds).
Proof.
  unfold sentinel_values, getitem. apply length_map.
Qed.

Lemma null_or_number_countable (values : list cell) :
  forallb null_or_number values = true -> forallb countable values = true.
Proof.
  rewrite !forallb_forall. intros H v Hv.
  specialize (H v Hv). now destruct v.
Qed.

Lemma forallb_firstn {A : Type} (p : A -> bool) (k : nat) (l : list A) :
  forallb p l = true -> forallb p (firstn k l) = true.
Proof.
  revert l. induction k as [|k IH]; intros [|x l] H; simpl; auto.
  simpl in H. apply andb_true_iff in H as [Hx Hl].
  now rewrite Hx, IH.
Qed.

(** ** Classification *)

Ltac distinct_labels :=
  unfold frame_labels_distinct; simpl;
  repeat (constructor; [simpl; intuition discriminate|]); constructor.

(** C4 (as amended): in [analyze_with_pandas] every column whose name
    contains a keyword of the role's full set, letter case ignored, is in
    the role's candidate list; in analyze_excel_files.py the same holds for
    the shorter keyword lists that script writes out. *)
Theorem keyword_match_is_candidate (ds : TabularDataset)
    (role : SemanticRole) (kw col : string) :
  In col (columns ds) ->
  contains_ci kw col = true ->
  (In kw (full_keywords role) ->
   exists cands,
     entry role (ExcelAnalyzer.classify ds) = Some cands /\ In col cands) /\
  (In kw (short_keywords role) ->
   exists cands,
     entry role (AnalyzeExcelFiles.classify ds) = Some cands /\ In col cands).
Proof.
  intros Hcol Hkw. split; intro Hin; eexists.
  - split; [apply pandas_entry|].
    apply filter_In. split; [assumption|].
    apply name_matches_iff. eauto.
  - split; [apply script_entry|].
    apply filter_In. split; [assumption|].
    apply name_matches_iff. eauto.
Qed.

Lemma keyword_match_is_candidate_witness :
  In "ArtikelNr" (columns scenario) /\
  contains_ci "art" "ArtikelNr" = true /\
  In "art" (full_keywords ArticleNumber) /\
  In "art" (short_keywords ArticleNumber) /\
  (exists cands,
     entry ArticleNumber (ExcelAnalyzer.classify scenario) = Some cands /\
     In "ArtikelNr" cands) /\
  (exists cands,
     entry ArticleNumber (AnalyzeExcelFiles.classify scenario) = Some cands /\
     In "ArtikelNr" cands).
Proof.
  assert (Hcol : In "ArtikelNr" (columns scenario)) by (simpl; auto).
  assert (Hkw : contains_ci "art" "ArtikelNr" = true) by reflexivity.
  assert (Hfull : In "art" (full_keywords ArticleNumber)) by (simpl; auto).
  assert (Hshort : In "art" (short_keywords ArticleNumber)) by (simpl; auto).
  pose proof (@keyword_match_is_candidate scenario ArticleNumber
                "art" "ArtikelNr" Hcol Hkw) as [Hp Hs].
  repeat split; auto.
Defined.

(** C4 (as stated) fails on analyze_excel_files.py: the column Deadline
    contains the Date keyword deadline, and the script's Date candidates
    are empty. *)
Lemma deadline_not_a_script_candidate :
  In "deadline" (full_keywords Date) /\
  In "Deadline" (columns deadline_only) /\
  contains_ci "deadline" "Deadline" = true /\
  entry Date (AnalyzeExcelFiles.classify deadline_only) = Some [] /\
  ~ (exists cands,
       entry Date (AnalyzeExcelFiles.classify deadline_only) = Some cands /\
       In "Deadline" cands).
Proof.
  repeat split; try (simpl; auto; fail).
  intros (cands & E & Hin).
  change (Some (@nil string) = Some cands) in E.
  injection E as <-. exact Hin.
Qed.

(** C5 (fails on the code): the fallback [analyze_with_openpyxl] of
    excel_analyzer.py binds no Status candidates, so on a sheet whose only
    column is Status its classification has no entry for that role, while
    [analyze_with_pandas] lists the column. *)
Theorem fallback_has_no_status_entry :
  entry Status (ExcelAnalyzer.classify_openpyxl status_only) = None /\
  entry Status (ExcelAnalyzer.classify status_only) = Some ["Status"].
Proof.
  split; reflexivity.
Qed.

(** C7 (as stated) fails on analyze_excel_files.py: filtered by the role's
    keywords the header of [deadline_only] gives the Date candidate
    Deadline, and the script, whose own Date list has no deadline, gives
    none. *)
Lemma script_date_list_is_shorter :
  filter (name_matches (full_keywords Date)) (columns deadline_only)
    = ["Deadline"] /\
  entry Date (AnalyzeExcelFiles.classify deadline_only) = Some [] /\
  entry Date (AnalyzeExcelFiles.classify deadline_only)
    <> Some (filter (name_matches (full_keywords Date))
               (columns deadline_only)).
Proof.
  split; [reflexivity|]. split; [reflexivity|].
  vm_compute. discriminate.
Qed.

(** C7 (as amended): for every dataset and role the candidate list is the
    column sequence, in its order, filtered to the names that match the
    keywords the path uses for the role: the role's full keyword set in
    [analyze_with_pandas], the shorter list that analyze_excel_files.py
    writes out in that script; and two runs on the same dataset give the
    same classification. *)
Theorem candidates_are_filtered_columns (ds : TabularDataset)
    (role : SemanticRole) :
  entry role (ExcelAnalyzer.classify ds)
    = Some (filter (name_matches (full_keywords role)) (columns ds)) /\
  entry role (AnalyzeExcelFiles.classify ds)
    = Some (filter (name_matches (short_keywords role)) (columns ds)) /\
  (forall first second,
     first = (ExcelAnalyzer.classify ds, AnalyzeExcelFiles.classify ds) ->
     second = (ExcelAnalyzer.classify ds, AnalyzeExcelFiles.classify ds) ->
     first = second).
Proof.
  split; [apply pandas_entry|].
  split; [apply script_entry|].
  intros first second -> ->. reflexivity.
Qed.

Lemma candidates_are_filtered_columns_witness :
  entry Quantity (ExcelAnalyzer.classify scenario) = Some ["QuantityRem1"] /\
  entry Quantity (AnalyzeExcelFiles.classify scenario) = Some ["QuantityRem1"] /\
  (ExcelAnalyzer.classify scenario, AnalyzeExcelFiles.classify scenario)
  = (ExcelAnalyzer.classify scenario, AnalyzeExcelFiles.classify scenario).
Proof.
  pose proof (candidates_are_filtered_columns scenario Quantity)
    as (Hp & Hs & Hdet).
  split; [exact Hp|]. split; [exact Hs|].
  exact (Hdet _ _ eq_refl eq_refl).
Defined.

(** C10: the candidate lists depend on the column names only.  Two
    datasets with the same column sequence get the same candidate list for
    every role, whatever their rows hold; the statistics computed next to
    the quantity candidates do not enter the lists. *)
Theorem candidates_ignore_row_values (ds1 ds2 : TabularDataset) :
  columns ds1 = columns ds2 ->
  ExcelAnalyzer.classify ds1 = ExcelAnalyzer.classify ds2 /\
  AnalyzeExcelFiles.classify ds1 = AnalyzeExcelFiles.classify ds2 /\
  (forall role,
     entry role (fst (ExcelAnalyzer.column_analysis ds1))
     = entry role (fst (ExcelAnalyzer.column_analysis ds2)) /\
     entry role (AnalyzeExcelFiles.classify ds1)
     = entry role (AnalyzeExcelFiles.classify ds2)).
Proof.
  intro H.
  assert (Hp : ExcelAnalyzer.classify ds1 = ExcelAnalyzer.classify ds2).
  { unfold ExcelAnalyzer.classify, ExcelAnalyzer.column_analysis.
    cbn [fst]. now rewrite H. }
  assert (Hs : AnalyzeExcelFiles.classify ds1 = AnalyzeExcelFiles.classify ds2).
  { unfold AnalyzeExcelFiles.classify. now rewrite H. }
  split; [exact Hp|]. split; [exact Hs|].
  intro role. fold (ExcelAnalyzer.classify ds1) (ExcelAnalyzer.classify ds2).
  now rewrite Hp, Hs.
Qed.

Lemma candidates_ignore_row_values_witness :
  columns scenario = columns scenario_other_rows /\
  snd (ExcelAnalyzer.column_analysis scenario)
    <> snd (ExcelAnalyzer.column_analysis scenario_other_rows) /\
  ExcelAnalyzer.classify scenario = ExcelAnalyzer.classify scenario_other_rows /\
  AnalyzeExcelFiles.classify scenario
    = AnalyzeExcelFiles.classify scenario_other_rows.
Proof.
  assert (H : columns scenario = columns scenario_other_rows) by reflexivity.
  pose proof (candidates_ignore_row_values scenario scenario_other_rows H)
    as (Hp & Hs & _).
  split; [exact H|]. split; [|split; assumption].
  vm_compute. discriminate.
Defined.

(** ** The remaining-quantity rule *)

Lemma count_firstn_le (p : cell -> bool) (k : nat) (values : list cell) :
  count p (firstn k values) <= count p values.
Proof.
  unfold count. revert values.
  induction k as [|k IH]; intros [|v values]; simpl; try lia.
  specialize (IH values). destruct (p v); simpl; lia.
Qed.

Lemma three_buckets (values : list cell) :
  count is_zerob values + count is_positiveb values + count is_nullb values
  <= List.length values.
Proof.
  unfold count. induction values as [|v values IH]; simpl; [lia|].
  destruct v as [|q|s|d]; simpl; try lia.
  destruct (Qeq_bool q 0) eqn:E.
  - pose proof (zero_not_positive (VNum q) E) as P. simpl in P.
    rewrite P. simpl. lia.
  - destruct (negb (Qle_bool q 0)); simpl; lia.
Qed.

(** C1 (fails on the code): on a frame that has the QuantityRem1 column
    and no row, [analyze_with_pandas] evaluates [zero_count/total*100] with
    [total = 0]; the division is not guarded and raises ZeroDivisionError,
    so no percentage is produced and the run ends in the handler. *)
Theorem percentages_raise_on_header_only :
  In sentinel (columns header_only) /\
  df_len header_only = 0 /\
  ExcelAnalyzer.remaining_quantity_rule header_only = Raise ZeroDivisionError /\
  ExcelAnalyzer.analyze_with_pandas header_only = Raise ZeroDivisionError.
Proof.
  repeat split. simpl. auto.
Qed.

(** With at least one row both percentages are the binary64 value of
    [count/total*100]. *)
Lemma percentages_defined (df : TabularDataset) (f : ExcelAnalyzer.RuleFinding) :
  ExcelAnalyzer.remaining_quantity_rule df = Ok (Some f) ->
  0 < ExcelAnalyzer.total f /\
  percent (ExcelAnalyzer.zero_count f) (ExcelAnalyzer.total f)
    = Ok (ExcelAnalyzer.percent_zero f) /\
  percent (ExcelAnalyzer.non_zero_count f) (ExcelAnalyzer.total f)
    = Ok (ExcelAnalyzer.percent_positive f).
Proof.
  rewrite pandas_rule_spec.
  destruct (name_in sentinel (columns df)); [|discriminate].
  destruct (forallb null_or_number (sentinel_values df)); [|discriminate].
  destruct (rows df) as [|row l] eqn:E; [discriminate|].
  cbn zeta. intro H. injection H as <-. cbn [ExcelAnalyzer.total
    ExcelAnalyzer.zero_count ExcelAnalyzer.non_zero_count
    ExcelAnalyzer.percent_zero ExcelAnalyzer.percent_positive].
  rewrite !percent_spec. simpl List.length. split; [lia|]. split; reflexivity.
Qed.

(** C2 (as amended): in [analyze_with_pandas] the total is the row count of
    the frame and both counts run over every row.  The loop of
    analyze_with_openpyxl.py counts over a leading sample of the data rows:
    all of them when the sheet has at most 998, and never a row beyond the
    first 1000. *)
Theorem counts_over_frame_and_sample (ds : TabularDataset) :
  (frame_labels_distinct ds ->
   forall f,
     ExcelAnalyzer.remaining_quantity_rule ds = Ok (Some f) ->
     ExcelAnalyzer.total f = List.length (rows ds) /\
     ExcelAnalyzer.zero_count f = count is_zerob (sentinel_values ds) /\
     ExcelAnalyzer.non_zero_count f = count is_positiveb (sentinel_values ds)) /\
  (forall zero_count non_zero_count,
     AnalyzeWithOpenpyxl.remaining_quantity_rule ds
       = Ok (Some (zero_count, non_zero_count)) ->
     exists sampled,
       sampled <= 1000 /\
       (List.length (rows ds) <= 998 -> sampled = List.length (rows ds)) /\
       zero_count = count is_zerob (firstn sampled (sentinel_values ds)) /\
       non_zero_count
         = count is_positiveb (firstn sampled (sentinel_values ds))).
Proof.
  split.
  - intros _ f. rewrite pandas_rule_spec.
    destruct (name_in sentinel (columns ds)); [|discriminate].
    destruct (forallb null_or_number (sentinel_values ds)); [|discriminate].
    destruct (rows ds) as [|row l]; [discriminate|].
    cbn zeta. intro H. injection H as <-. auto.
  - intros z nz. rewrite openpyxl_rule_spec.
    destruct (name_in sentinel (columns ds)); [|discriminate].
    cbn zeta.
    destruct (forallb countable (firstn 998 (sentinel_values ds)));
      [|discriminate].
    intro H. injection H as <- <-.
    exists (Nat.min 998 (List.length (sentinel_values ds))).
    rewrite firstn_min_length, sentinel_values_length.
    repeat split; lia.
Qed.

Lemma counts_over_frame_and_sample_witness :
  frame_labels_distinct scenario /\
  (exists f,
     ExcelAnalyzer.remaining_quantity_rule scenario = Ok (Some f) /\
     ExcelAnalyzer.total f = 2 /\
     ExcelAnalyzer.zero_count f = 1 /\
     ExcelAnalyzer.non_zero_count f = 1) /\
  AnalyzeWithOpenpyxl.remaining_quantity_rule scenario = Ok (Some (1, 1)) /\
  (exists sampled,
     sampled = 2 /\
     1 = count is_zerob (firstn sampled (sentinel_values scenario)) /\
     1 = count is_positiveb (firstn sampled (sentinel_values scenario))).
Proof.
  assert (Hd : frame_labels_distinct scenario) by distinct_labels.
  destruct (counts_over_frame_and_sample scenario) as [Hp Ho].
  split; [exact Hd|]. split.
  - destruct (ExcelAnalyzer.remaining_quantity_rule scenario)
      as [[f|]|e] eqn:E; try (vm_compute in E; discriminate).
    exists f. split; [reflexivity|].
    destruct (Hp Hd f eq_refl) as (Ht & Hz & Hn).
    rewrite Ht, Hz, Hn. repeat split.
  - split; [reflexivity|].
    destruct (Ho 1 1 eq_refl) as (sampled & _ & Hall & Hz & Hn).
    exists sampled. split; [apply Hall; simpl; lia|]. split; assumption.
Defined.

(** C2 (as stated) fails on analyze_with_openpyxl.py: of 1001 data rows
    that all hold zero the loop counts 998. *)
Lemma long_sheet_is_sampled :
  In sentinel (columns long_sheet) /\
  List.length (rows long_sheet) = 1001 /\
  count is_zerob (sentinel_values long_sheet) = 1001 /\
  AnalyzeWithOpenpyxl.remaining_quantity_rule long_sheet = Ok (Some (998, 0)).
Proof.
  split; [simpl; auto|]. repeat split; vm_compute; reflexivity.
Qed.

(** C3 (as amended): rule evaluation ends either with the finding or with
    an exception that the function's handler reports.  When every value of
    the sentinel column is absent or a number, [analyze_with_pandas] (on a
    frame with at least one row) and the loop of analyze_with_openpyxl.py
    complete and produce the counts, and an absent value counts toward the
    total but toward neither bucket.  In [analyze_with_pandas] a text or a
    date value in the column (a text that [pd.read_excel] keeps as text)
    makes the comparison with [>] raise TypeError and no finding is
    produced.  The loop of analyze_with_openpyxl.py raises TypeError on a
    non-empty text or a date value in the column when the sheet has at most
    998 data rows, so that the loop visits every row. *)
Theorem rule_outcome_by_value_kind (ds : TabularDataset) :
  In sentinel (columns ds) ->
  (forallb null_or_number (sentinel_values ds) = true ->
   (frame_labels_distinct ds -> rows ds <> [] ->
    exists f,
      ExcelAnalyzer.remaining_quantity_rule ds = Ok (Some f) /\
      ExcelAnalyzer.total f = List.length (sentinel_values ds) /\
      ExcelAnalyzer.zero_count f + ExcelAnalyzer.non_zero_count f
        + count is_nullb (sentinel_values ds) <= ExcelAnalyzer.total f) /\
   (exists zero_count non_zero_count,
      AnalyzeWithOpenpyxl.remaining_quantity_rule ds
        = Ok (Some (zero_count, non_zero_count)) /\
      zero_count + non_zero_count + count is_nullb (sentinel_values ds)
        <= List.length (rows ds))) /\
  (forall v,
     In v (sentinel_values ds) ->
     (exists s, v = VText s) \/ (exists d, v = VDate d) ->
     frame_labels_distinct ds ->
     frame_cells_as_read ds ->
     ExcelAnalyzer.remaining_quantity_rule ds = Raise TypeError) /\
  (forall v,
     In v (sentinel_values ds) ->
     (exists s, v = VText s /\ s <> EmptyString) \/ (exists d, v = VDate d) ->
     List.length (rows ds) <= 998 ->
     AnalyzeWithOpenpyxl.remaining_quantity_rule ds = Raise TypeError).
Proof.
  intro Hin. apply name_in_iff in Hin.
  rewrite pandas_rule_spec, openpyxl_rule_spec, Hin. cbn zeta.
  split; [|split].
  - intro Hnum. rewrite Hnum. split.
    + intros _ Hrows. destruct (rows ds) as [|row l] eqn:E; [now elim Hrows|].
      eexists. split; [reflexivity|].
      cbn [ExcelAnalyzer.total ExcelAnalyzer.zero_count
           ExcelAnalyzer.non_zero_count].
      rewrite sentinel_values_length, E. split; [reflexivity|].
      rewrite <- E, <- sentinel_values_length. apply three_buckets.
    + rewrite (forallb_firstn _ 998 _ (null_or_number_countable _ Hnum)).
      do 2 eexists. split; [reflexivity|].
      pose proof (count_firstn_le is_zerob 998 (sentinel_values ds)).
      pose proof (count_firstn_le is_positiveb 998 (sentinel_values ds)).
      pose proof (three_buckets (sentinel_values ds)).
      rewrite <- sentinel_values_length. lia.
  - intros v Hv Hkind _ _.
    assert (Htext : forallb null_or_number (sentinel_values ds) = false).
    { destruct (forallb null_or_number (sentinel_values ds)) eqn:E;
        [|reflexivity].
      rewrite forallb_forall in E. specialize (E v Hv).
      destruct Hkind as [[s ->]|[d ->]]; discriminate. }
    now rewrite Htext.
  - intros v Hv Hkind Hshort.
    rewrite firstn_all2 by (rewrite sentinel_values_length; exact Hshort).
    assert (Htext : forallb countable (sentinel_values ds) = false).
    { destruct (forallb countable (sentinel_values ds)) eqn:E; [|reflexivity].
      rewrite forallb_forall in E. specialize (E v Hv).
      destruct Hkind as [(s & -> & Hs)|[d ->]]; [|discriminate].
      destruct s; [now elim Hs|discriminate]. }
    now rewrite Htext.
Qed.

Lemma rule_outcome_by_value_kind_witness :
  In sentinel (columns scenario) /\
  forallb null_or_number (sentinel_values scenario) = true /\
  frame_labels_distinct scenario /\
  rows scenario <> [] /\
  (exists f, ExcelAnalyzer.remaining_quantity_rule scenario = Ok (Some f)) /\
  (exists zero_count non_zero_count,
     AnalyzeWithOpenpyxl.remaining_quantity_rule scenario
       = Ok (Some (zero_count, non_zero_count))) /\
  In sentinel (columns text_in_quantity) /\
  In (VText "offen") (sentinel_values text_in_quantity) /\
  frame_labels_distinct text_in_quantity /\
  frame_cells_as_read text_in_quantity /\
  List.length (rows text_in_quantity) <= 998 /\
  ExcelAnalyzer.remaining_quantity_rule text_in_quantity = Raise TypeError /\
  AnalyzeWithOpenpyxl.remaining_quantity_rule text_in_quantity
    = Raise TypeError.
Proof.
  assert (Hin : In sentinel (columns scenario)) by (simpl; auto).
  assert (Hnum : forallb null_or_number (sentinel_values scenario) = true)
    by reflexivity.
  assert (Hd : frame_labels_distinct scenario) by distinct_labels.
  assert (Hrows : rows scenario <> []) by discriminate.
  assert (Hin' : In sentinel (columns text_in_quantity)) by (simpl; auto).
  assert (Hv : In (VText "offen") (sentinel_values text_in_quantity))
    by (simpl; auto).
  assert (Hd' : frame_labels_distinct text_in_quantity) by distinct_labels.
  assert (Hr : frame_cells_as_read text_in_quantity)
    by (repeat constructor).
  assert (Hlen : List.length (rows text_in_quantity) <= 998)
    by (simpl; lia).
  destruct (rule_outcome_by_value_kind scenario Hin) as (Hok & _ & _).
  destruct (Hok Hnum) as (Hp & Ho).
  destruct (Hp Hd Hrows) as (f & Hf & _).
  destruct Ho as (z & nz & Hz & _).
  destruct (rule_outcome_by_value_kind text_in_quantity Hin')
    as (_ & Hrp & Hro).
  pose proof (Hrp _ Hv (or_introl (ex_intro _ "offen" eq_refl)) Hd' Hr) as Ep.
  assert (Hne : "offen" <> EmptyString) by discriminate.
  pose proof (Hro _ Hv
                (or_introl (ex_intro _ "offen" (conj eq_refl Hne))) Hlen)
    as Eo.
  repeat split; eauto.
Defined.

(** C3 (as stated) fails: with the text offen in the sentinel column, which
    both loaders deliver as text, both paths raise TypeError in place of
    the finding. *)
Lemma text_value_raises :
  In sentinel (columns text_in_quantity) /\
  sentinel_values text_in_quantity = [VText "offen"] /\
  read_cell (VText "offen") = VText "offen" /\
  ExcelAnalyzer.remaining_quantity_rule text_in_quantity = Raise TypeError /\
  ExcelAnalyzer.analyze_with_pandas text_in_quantity = Raise TypeError /\
  AnalyzeWithOpenpyxl.remaining_quantity_rule text_in_quantity
    = Raise TypeError.
Proof.
  split; [simpl; auto|]. repeat split.
Qed.

Ltac split_outcome :=
  repeat match goal with
         | |- context [if ?b then _ else _] => destruct b
         | |- context [match rows ?d with _ => _ end] => destruct (rows d)
         end.

Lemma rule_entered (ds : TabularDataset) :
  name_in sentinel (columns ds) = true ->
  ExcelAnalyzer.remaining_quantity_rule ds <> Ok None /\
  AnalyzeExcelFiles.remaining_quantity_rule ds <> Ok None /\
  AnalyzeWithOpenpyxl.remaining_quantity_rule ds <> Ok None /\
  ExcelAnalyzer.quantity_rem1_notice ds <> Ok None.
Proof.
  intro H.
  rewrite pandas_rule_spec, script_rule_spec, openpyxl_rule_spec.
  unfold ExcelAnalyzer.quantity_rem1_notice. rewrite H. cbn zeta.
  repeat split; split_outcome; discriminate.
Qed.

Lemma rule_skipped (ds : TabularDataset) :
  name_in sentinel (columns ds) = false ->
  ExcelAnalyzer.remaining_quantity_rule ds = Ok None /\
  AnalyzeExcelFiles.remaining_quantity_rule ds = Ok None /\
  AnalyzeWithOpenpyxl.remaining_quantity_rule ds = Ok None /\
  ExcelAnalyzer.quantity_rem1_notice ds = Ok None.
Proof.
  intro H.
  rewrite pandas_rule_spec, script_rule_spec, openpyxl_rule_spec.
  unfold ExcelAnalyzer.quantity_rem1_notice. rewrite H.
  repeat split.
Qed.

(** C6: the rule fires exactly when a column is named QuantityRem1, the
    whole name and letter for letter; without such a column every path
    returns no finding and raises nothing. *)
Theorem rule_fires_on_exact_name (ds : TabularDataset) :
  (In "QuantityRem1" (columns ds) <->
   ExcelAnalyzer.remaining_quantity_rule ds <> Ok None) /\
  (In "QuantityRem1" (columns ds) <->
   AnalyzeExcelFiles.remaining_quantity_rule ds <> Ok None) /\
  (In "QuantityRem1" (columns ds) <->
   AnalyzeWithOpenpyxl.remaining_quantity_rule ds <> Ok None) /\
  (In "QuantityRem1" (columns ds) <->
   ExcelAnalyzer.quantity_rem1_notice ds <> Ok None) /\
  (~ In "QuantityRem1" (columns ds) ->
   ExcelAnalyzer.remaining_quantity_rule ds = Ok None /\
   AnalyzeExcelFiles.remaining_quantity_rule ds = Ok None /\
   AnalyzeWithOpenpyxl.remaining_quantity_rule ds = Ok None /\
   ExcelAnalyzer.quantity_rem1_notice ds = Ok None).
Proof.
  change "QuantityRem1" with sentinel.
  rewrite <- name_in_iff.
  destruct (name_in sentinel (columns ds)) eqn:E.
  - destruct (rule_entered ds E) as (Hp & Hs & Ho & Hn).
    repeat split; intros; try congruence; auto.
  - destruct (rule_skipped ds E) as (Hp & Hs & Ho & Hn).
    rewrite Hp, Hs, Ho, Hn.
    repeat split; intros; try congruence; auto.
Qed.

Lemma rule_fires_on_exact_name_witness :
  ~ In "QuantityRem1" (columns near_miss) /\
  entry Quantity (ExcelAnalyzer.classify near_miss)
    = Some ["quantityrem1"; "QuantityRem"] /\
  ExcelAnalyzer.remaining_quantity_rule near_miss = Ok None /\
  AnalyzeExcelFiles.remaining_quantity_rule near_miss = Ok None /\
  In "QuantityRem1" (columns scenario) /\
  ExcelAnalyzer.remaining_quantity_rule scenario <> Ok None.
Proof.
  assert (Hno : ~ In "QuantityRem1" (columns near_miss))
    by (simpl; intuition discriminate).
  assert (Hyes : In "QuantityRem1" (columns scenario)) by (simpl; auto).
  destruct (rule_fires_on_exact_name near_miss) as (_ & _ & _ & _ & Habsent).
  destruct (Habsent Hno) as (Hp & Hs & _ & _).
  destruct (rule_fires_on_exact_name scenario) as (Hfire & _).
  split; [exact Hno|]. split; [reflexivity|].
  split; [exact Hp|]. split; [exact Hs|].
  split; [exact Hyes|]. exact (proj1 Hfire Hyes).
Defined.

(** C8: whenever the counts are produced, [zero_count + non_zero_count]
    is at most the number of data rows (the total of [analyze_with_pandas]),
    and the two are equal only if every value of the sentinel column is a
    number that is zero or positive. *)
Theorem buckets_within_total (ds : TabularDataset) :
  (frame_labels_distinct ds ->
   forall f,
     ExcelAnalyzer.remaining_quantity_rule ds = Ok (Some f) ->
     ExcelAnalyzer.zero_count f + ExcelAnalyzer.non_zero_count f
       <= ExcelAnalyzer.total f /\
     (ExcelAnalyzer.zero_count f + ExcelAnalyzer.non_zero_count f
        = ExcelAnalyzer.total f ->
      Forall (fun v => is_zero v \/ is_positive v) (sentinel_values ds))) /\
  (forall zero_count non_zero_count,
     AnalyzeWithOpenpyxl.remaining_quantity_rule ds
       = Ok (Some (zero_count, non_zero_count)) ->
     zero_count + non_zero_count <= List.length (rows ds) /\
     (zero_count + non_zero_count = List.length (rows ds) ->
      Forall (fun v => is_zero v \/ is_positive v) (sentinel_values ds))).
Proof.
  split.
  - intros _ f. rewrite pandas_rule_spec.
    destruct (name_in sentinel (columns ds)); [|discriminate].
    destruct (forallb null_or_number (sentinel_values ds)); [|discriminate].
    destruct (rows ds) as [|row l] eqn:E; [discriminate|].
    cbn zeta. intro H. injection H as <-.
    cbn [ExcelAnalyzer.total ExcelAnalyzer.zero_count
         ExcelAnalyzer.non_zero_count].
    change (S (List.length l)) with (List.length (row :: l)).
    rewrite <- E, <- sentinel_values_length. apply two_buckets.
  - intros z nz. rewrite openpyxl_rule_spec.
    destruct (name_in sentinel (columns ds)); [|discriminate].
    cbn zeta.
    remember (firstn 998 (sentinel_values ds)) as sample eqn:Es.
    destruct (forallb countable sample); [|discriminate].
    intro H. injection H as <- <-.
    rewrite <- sentinel_values_length.
    destruct (two_buckets sample) as [Hle Heq].
    assert (Hlen : List.length sample
                   = Nat.min 998 (List.length (sentinel_values ds)))
      by (rewrite Es; apply length_firstn).
    split; [lia|]. intro Hall.
    assert (Hshort : List.length (sentinel_values ds) <= 998) by lia.
    rewrite firstn_all2 in Es by exact Hshort. subst sample.
    apply Heq, Hall.
Qed.

Lemma buckets_within_total_witness :
  frame_labels_distinct scenario /\
  (exists f,
     ExcelAnalyzer.remaining_quantity_rule scenario = Ok (Some f) /\
     ExcelAnalyzer.zero_count f + ExcelAnalyzer.non_zero_count f
       = ExcelAnalyzer.total f) /\
  AnalyzeWithOpenpyxl.remaining_quantity_rule scenario = Ok (Some (1, 1)) /\
  1 + 1 = List.length (rows scenario) /\
  Forall (fun v => is_zero v \/ is_positive v) (sentinel_values scenario).
Proof.
  assert (Hd : frame_labels_distinct scenario) by distinct_labels.
  destruct (buckets_within_total scenario) as [Hp Ho].
  split; [exact Hd|]. split.
  - destruct (ExcelAnalyzer.remaining_quantity_rule scenario)
      as [[f|]|e] eqn:E; try (vm_compute in E; discriminate).
    exists f. split; [reflexivity|].
    vm_compute in E. injection E as <-. reflexivity.
  - split; [reflexivity|]. split; [reflexivity|].
    exact (proj2 (Ho 1 1 eq_refl) eq_refl).
Defined.

(** C9: on the scenario with columns ArtikelNr, QuantityRem1, Status and
    the rows (A1, 0, closed), (A2, 5, open), the first candidates are
    ArtikelNr for ArticleNumber, QuantityRem1 for Quantity and Status for
    Status, and the rule yields zero_count 1, positive count 1, total 2 and
    both percentages 50.0. *)
Theorem scenario_report :
  option_map chosen (entry ArticleNumber (ExcelAnalyzer.classify scenario))
    = Some (Some "ArtikelNr") /\
  option_map chosen (entry Quantity (ExcelAnalyzer.classify scenario))
    = Some (Some "QuantityRem1") /\
  option_map chosen (entry Status (ExcelAnalyzer.classify scenario))
    = Some (Some "Status") /\
  exists report f,
    ExcelAnalyzer.analyze_with_pandas scenario = Ok report /\
    ExcelAnalyzer.use_article report = Some "ArtikelNr" /\
    ExcelAnalyzer.finding report = Some f /\
    ExcelAnalyzer.remaining_quantity_rule scenario = Ok (Some f) /\
    ExcelAnalyzer.zero_count f = 1 /\
    ExcelAnalyzer.non_zero_count f = 1 /\
    ExcelAnalyzer.total f = 2 /\
    ExcelAnalyzer.percent_zero f = float_of_int 50 /\
    ExcelAnalyzer.percent_positive f = float_of_int 50 /\
    exists q, float_value (float_of_int 50) = Some q /\ (q == 50)%Q.
Proof.
  split; [reflexivity|]. split; [reflexivity|]. split; [reflexivity|].
  do 2 eexists.
  split; [vm_compute; reflexivity|].
  repeat (split; [vm_compute; reflexivity|]).
  eexists. split; [vm_compute; reflexivity|].
  unfold Qeq. vm_compute. reflexivity.
Qed.

(** ** Shown values: truncation *)

Lemma length_append (a b : string) :
  String.length (a ++ b)%string = String.length a + String.length b.
Proof.
  induction a as [|c a IH]; simpl; [reflexivity|]. now rewrite IH.
Qed.

Lemma substring_front_length (n : nat) (s : string) :
  n <= String.length s -> String.length (substring 0 n s) = n.
Proof.
  revert s. induction n as [|n IH]; intros [|c s] H; simpl in *;
    try reflexivity; try lia.
  now rewrite IH by lia.
Qed.

Lemma substring_front_append (a b : string) :
  substring 0 (String.length a) (a ++ b)%string = a.
Proof.
  induction a as [|c a IH]; simpl.
  - now destruct b.
  - now rewrite IH.
Qed.

Lemma truncate_short (limit : nat) (s : string) :
  String.length s <= limit -> truncate limit s = s.
Proof.
  intro H. unfold truncate.
  destruct (Nat.ltb_spec limit (String.length s)); [lia|reflexivity].
Qed.

Lemma truncate_long (limit : nat) (s : string) :
  limit < String.length s ->
  truncate limit s = (substring 0 limit s ++ "...")%string.
Proof.
  intro H. unfold truncate.
  destruct (Nat.ltb_spec limit (String.length s)); [reflexivity|lia].
Qed.

Lemma truncate_cut (limit : nat) (s : string) :
  limit < String.length s ->
  String.length (truncate limit s) = limit + 3 /\
  substring 0 limit (truncate limit s) = substring 0 limit s.
Proof.
  intro H. rewrite (@truncate_long limit s H). split.
  - rewrite length_append, substring_front_length by lia. reflexivity.
  - rewrite <- (@substring_front_length limit s) at 1 by lia.
    apply substring_front_append.
Qed.

(** Cutting a value that was cut already changes nothing, although the cut
    value is itself longer than the limit. *)
Theorem truncate_idempotent (limit : nat) (s : string) :
  truncate limit (truncate limit s) = truncate limit s.
Proof.
  destruct (Nat.le_gt_cases (String.length s) limit) as [H|H].
  - now rewrite !(@truncate_short limit s H).
  - destruct (@truncate_cut limit s H) as (Hlen & Hfront).
    rewrite (@truncate_long limit (truncate limit s)) by lia.
    rewrite Hfront. symmetry. exact (@truncate_long limit s H).
Qed.

(** A value one or two characters over the limit is shown longer than it
    is: the three dots cost more than the cut saves. *)
Theorem truncate_can_lengthen (limit : nat) (s : string) :
  limit < String.length s ->
  String.length s <= limit + 2 ->
  String.length s < String.length (truncate limit s).
Proof.
  intros Hlo Hhi.
  destruct (@truncate_cut limit s Hlo) as (Hlen & _). lia.
Qed.

Lemma truncate_can_lengthen_witness :
  5 < String.length "Status" /\
  String.length "Status" <= 5 + 2 /\
  String.length "Status" < String.length (truncate 5 "Status").
Proof.
  assert (Hlo : 5 < String.length "Status") by (simpl; lia).
  assert (Hhi : String.length "Status" <= 5 + 2) by (simpl; lia).
  split; [exact Hlo|]. split; [exact Hhi|].
  exact (@truncate_can_lengthen 5 "Status" Hlo Hhi).
Defined.

(** ** The four classifications side by side *)

Lemma no_keyword_in_empty (kws : list string) :
  Forall (fun kw => kw <> EmptyString) kws ->
  name_matches kws EmptyString = false.
Proof.
  unfold name_matches.
  induction 1 as [|kw kws Hkw _ IH]; [reflexivity|].
  destruct kw; [now elim Hkw|]. exact IH.
Qed.

(** The guard [col and ...] of the openpyxl paths adds nothing for text
    names: the empty name matches no keyword anyway. *)
Lemma guarded_comp_matches (kws : list string) (cols : list string) :
  Forall (fun kw => lower kw = kw) kws ->
  Forall (fun kw => kw <> EmptyString) kws ->
  list_comp cols (fun col => truthy_str col && any_in (lower col) kws)
  = filter (name_matches kws) cols.
Proof.
  intros Hlow Hne. rewrite list_comp_filter.
  apply filter_ext. intro col.
  rewrite (any_in_lower_matches col Hlow).
  destruct col; [|reflexivity].
  simpl. symmetry. now apply no_keyword_in_empty.
Qed.

Lemma sheet_entry (ds : TabularDataset) (role : SemanticRole) :
  entry role (AnalyzeWithOpenpyxl.classify ds)
  = Some (filter (name_matches (sheet_keywords role)) (columns ds)).
Proof.
  unfold AnalyzeWithOpenpyxl.classify.
  destruct role; cbn [entry SemanticRole_eqb sheet_keywords]; f_equal;
    apply guarded_comp_matches; repeat constructor; discriminate.
Qed.

Lemma fallback_entry (ds : TabularDataset) (role : SemanticRole) :
  entry role (ExcelAnalyzer.classify_openpyxl ds)
  = match role with
    | Status => None
    | _ => Some (filter (name_matches (sheet_keywords role)) (columns ds))
    end.
Proof.
  unfold ExcelAnalyzer.classify_openpyxl.
  destruct role; cbn [entry SemanticRole_eqb sheet_keywords];
    try reflexivity; f_equal;
    apply guarded_comp_matches; repeat constructor; discriminate.
Qed.

Lemma name_matches_incl (small large : list string) (name : string) :
  incl small large ->
  name_matches small name = true -> name_matches large name = true.
Proof.
  intros Hincl. rewrite !name_matches_iff.
  intros (kw & Hin & Hkw). exists kw. split; [now apply Hincl|assumption].
Qed.

Lemma short_in_sheet (role : SemanticRole) :
  incl (short_keywords role) (sheet_keywords role).
Proof.
  destruct role; intros kw H; simpl in *; intuition.
Qed.

Lemma sheet_in_full (role : SemanticRole) :
  incl (sheet_keywords role) (full_keywords role).
Proof.
  destruct role; intros kw H; simpl in *; intuition.
Qed.

Lemma filter_filter_implied {A : Type} (p q : A -> bool) (l : list A) :
  (forall x, p x = true -> q x = true) ->
  filter p (filter q l) = filter p l.
Proof.
  intro H. induction l as [|x l IH]; simpl; [reflexivity|].
  destruct (q x) eqn:Eq; simpl.
  - now rewrite IH.
  - destruct (p x) eqn:Ep; [|exact IH].
    apply H in Ep. congruence.
Qed.

(** The narrower a path's keyword lists, the fewer its candidates.  On one
    frame the candidates of analyze_excel_files.py are, for each role, those
    of [analyze_with_pandas] that match the script's own keywords.  When a
    sheet and a frame carry the same column names (the header cells are
    filled and distinct, so that neither loader renames a column), the
    candidates of analyze_excel_files.py are those of
    analyze_with_openpyxl.py that match the script's keywords, and the
    candidates of analyze_with_openpyxl.py are those of
    [analyze_with_pandas] that match the sheet keywords. *)
Theorem candidates_nest (df sheet : TabularDataset) (role : SemanticRole) :
  exists script pandas,
    entry role (AnalyzeExcelFiles.classify df) = Some script /\
    entry role (ExcelAnalyzer.classify df) = Some pandas /\
    script = filter (name_matches (short_keywords role)) pandas /\
    incl script pandas /\
    (columns df = columns sheet ->
     exists on_sheet,
       entry role (AnalyzeWithOpenpyxl.classify sheet) = Some on_sheet /\
       script = filter (name_matches (short_keywords role)) on_sheet /\
       on_sheet = filter (name_matches (sheet_keywords role)) pandas /\
       incl script on_sheet /\ incl on_sheet pandas).
Proof.
  assert (E1 : forall cols,
             filter (name_matches (short_keywords role)) cols
             = filter (name_matches (short_keywords role))
                 (filter (name_matches (sheet_keywords role)) cols)).
  { intro cols. symmetry. apply filter_filter_implied. intro c.
    apply name_matches_incl, short_in_sheet. }
  assert (E2 : forall cols,
             filter (name_matches (sheet_keywords role)) cols
             = filter (name_matches (sheet_keywords role))
                 (filter (name_matches (full_keywords role)) cols)).
  { intro cols. symmetry. apply filter_filter_implied. intro c.
    apply name_matches_incl, sheet_in_full. }
  assert (E3 : forall cols,
             filter (name_matches (short_keywords role)) cols
             = filter (name_matches (short_keywords role))
                 (filter (name_matches (full_keywords role)) cols)).
  { intro cols. symmetry. apply filter_filter_implied. intro c.
    intro M. apply (@name_matches_incl _ _ c (sheet_in_full role)).
    now apply (@name_matches_incl _ _ c (short_in_sheet role)). }
  do 2 eexists.
  split; [apply script_entry|]. split; [apply pandas_entry|].
  split; [apply E3|]. split; [rewrite E3; apply incl_filter|].
  intro Hcols. eexists. split; [apply sheet_entry|].
  rewrite <- Hcols.
  split; [apply E1|]. split; [apply E2|]. split.
  - rewrite E1. apply incl_filter.
  - rewrite E2. apply incl_filter.
Qed.

Lemma candidates_nest_witness :
  columns scenario = columns scenario_other_rows /\
  exists script on_sheet,
    entry Quantity (AnalyzeExcelFiles.classify scenario) = Some script /\
    entry Quantity (AnalyzeWithOpenpyxl.classify scenario_other_rows)
      = Some on_sheet /\
    incl script on_sheet.
Proof.
  assert (Hc : columns scenario = columns scenario_other_rows) by reflexivity.
  split; [exact Hc|].
  destruct (candidates_nest scenario scenario_other_rows Quantity)
    as (script & pandas & Hs & _ & _ & _ & Hsheet).
  destruct (Hsheet Hc) as (on_sheet & Ho & _ & _ & Hi & _).
  exists script, on_sheet. split; [exact Hs|]. split; [exact Ho|exact Hi].
Defined.

(** The two openpyxl functions propose the same columns for the four roles
    the fallback knows.  When a sheet and a frame carry the same column
    names (the header cells are filled and distinct), analyze_with_openpyxl.py
    proposes for every role but Quantity, where it adds the keyword rem,
    exactly the columns that analyze_excel_files.py proposes. *)
Theorem openpyxl_paths_agree (sheet df : TabularDataset)
    (role : SemanticRole) :
  (role <> Status ->
   entry role (ExcelAnalyzer.classify_openpyxl sheet)
   = entry role (AnalyzeWithOpenpyxl.classify sheet)) /\
  (role <> Quantity ->
   columns df = columns sheet ->
   entry role (AnalyzeWithOpenpyxl.classify sheet)
   = entry role (AnalyzeExcelFiles.classify df)).
Proof.
  rewrite fallback_entry, sheet_entry, script_entry.
  split.
  - intro H. destruct role; try reflexivity; now elim H.
  - intros H ->. destruct role; try reflexivity; now elim H.
Qed.

Lemma openpyxl_paths_agree_witness :
  ArticleNumber <> Status /\ ArticleNumber <> Quantity /\
  columns scenario_other_rows = columns scenario /\
  entry ArticleNumber (ExcelAnalyzer.classify_openpyxl scenario)
  = entry ArticleNumber (AnalyzeWithOpenpyxl.classify scenario) /\
  entry ArticleNumber (AnalyzeWithOpenpyxl.classify scenario)
  = entry ArticleNumber (AnalyzeExcelFiles.classify scenario_other_rows).
Proof.
  assert (H1 : ArticleNumber <> Status) by discriminate.
  assert (H2 : ArticleNumber <> Quantity) by discriminate.
  assert (Hc : columns scenario_other_rows = columns scenario) by reflexivity.
  destruct (openpyxl_paths_agree scenario scenario_other_rows ArticleNumber)
    as [Ha Hb].
  split; [exact H1|]. split; [exact H2|]. split; [exact Hc|].
  split; [exact (Ha H1)|exact (Hb H2 Hc)].
Defined.

(** ** Column names read from a sheet *)

Lemma decimal_all_digits (n : nat) : all_digits (decimal n) = true.
Proof.
  unfold decimal. induction (Nat.to_uint n); simpl; auto.
Qed.

Lemma decimal_inj (n m : nat) : decimal n = decimal m -> n = m.
Proof.
  unfold decimal. intro H.
  apply DecimalNat.Unsigned.to_uint_inj.
  assert (E : Some (Nat.to_uint n) = Some (Nat.to_uint m)).
  { rewrite <- !NilEmpty.usu. now rewrite H. }
  now injection E.
Qed.

Lemma digit_not_upper (c : ascii) : is_digit c = true -> lower_char c = c.
Proof.
  unfold is_digit, lower_char, is_upper. intro H.
  apply andb_true_iff in H as [_ H]. apply Nat.leb_le in H.
  destruct (Nat.leb_spec 65 (nat_of_ascii c)); [lia|reflexivity].
Qed.

(** A keyword that starts with a letter does not occur among digits. *)
Lemma no_keyword_in_digits (a : ascii) (kw d : string) :
  is_digit (lower_char a) = false ->
  all_digits d = true ->
  contains_ci (String a kw) d = false.
Proof.
  intros Ha. induction d as [|b d IH]; intro Hd; [reflexivity|].
  simpl in Hd. apply andb_true_iff in Hd as [Hb Hd].
  cbn [contains_ci prefix_ci]. rewrite (IH Hd), orb_false_r.
  unfold same_letterb. rewrite (digit_not_upper b Hb).
  destruct (Ascii.eqb_spec (lower_char a) b) as [E|N]; [|reflexivity].
  congruence.
Qed.

Lemma placeholder_matches_nothing (role : SemanticRole) (d : string) :
  all_digits d = true ->
  name_matches (full_keywords role) ("Column_" ++ d)%string = false.
Proof.
  intro Hd.
  destruct (name_matches (full_keywords role) ("Column_" ++ d)%string)
    eqn:E; [|reflexivity].
  apply name_matches_iff in E as (kw & Hin & Hkw). exfalso.
  assert (Hrest : forall a kw', kw = String a kw' ->
            is_digit (lower_char a) = false -> contains_ci kw d = false).
  { intros a kw' -> Ha. now apply no_keyword_in_digits. }
  destruct role; simpl in Hin;
    repeat (destruct Hin as [<-|Hin];
            [cbn in Hkw;
             rewrite (Hrest _ _ eq_refl eq_refl) in Hkw; discriminate|]);
    exact Hin.
Qed.

Lemma nth_column_names (max_column : nat) (header : list (option string))
    (col : nat) :
  1 <= col <= max_column ->
  nth (col - 1) (column_names max_column header) EmptyString
  = match nth (col - 1) header None with
    | Some cell_value => cell_value
    | None => ("Column_" ++ decimal col)%string
    end.
Proof.
  intro H. unfold column_names, range.
  replace (max_column + 1 - 1) with max_column by lia.
  set (name := fun c : nat => match nth (c - 1) header None with
                              | Some v => v
                              | None => ("Column_" ++ decimal c)%string
                              end).
  change (nth (col - 1) (map name (seq 1 max_column)) EmptyString = name col).
  rewrite (nth_indep _ EmptyString (name 0))
    by (rewrite length_map, length_seq; lia).
  rewrite map_nth, seq_nth by lia.
  f_equal. lia.
Qed.

(** Every sheet column gets a name: the header row may be shorter than the
    sheet is wide. *)
Lemma column_names_length (max_column : nat) (header : list (option string)) :
  List.length (column_names max_column header) = max_column.
Proof.
  unfold column_names, range. rewrite length_map, length_seq. lia.
Qed.

(** A column whose header cell is empty is named [Column_<n>]; that name is
    not the sentinel and contains none of the keywords, so the column is in
    no candidate list of any path and cannot start the remaining-quantity
    rule. *)
Theorem blank_header_is_never_classified (max_column : nat)
    (header : list (option string)) (sheet_rows : list (list cell))
    (col : nat) :
  1 <= col <= max_column ->
  nth (col - 1) header None = None ->
  let sheet := mkDataset (column_names max_column header) sheet_rows in
  let name := nth (col - 1) (columns sheet) EmptyString in
  name = ("Column_" ++ decimal col)%string /\
  name <> sentinel /\
  forall role cands,
    entry role (ExcelAnalyzer.classify sheet) = Some cands \/
    entry role (ExcelAnalyzer.classify_openpyxl sheet) = Some cands \/
    entry role (AnalyzeExcelFiles.classify sheet) = Some cands \/
    entry role (AnalyzeWithOpenpyxl.classify sheet) = Some cands ->
    ~ In name cands.
Proof.
  intros Hcol Hblank sheet name.
  assert (E : name = ("Column_" ++ decimal col)%string).
  { unfold name, sheet. cbn [columns].
    now rewrite (@nth_column_names max_column header col Hcol), Hblank. }
  split; [exact E|]. split; [rewrite E; discriminate|].
  assert (Hfull : forall role, name_matches (full_keywords role) name = false).
  { intro role. rewrite E.
    apply placeholder_matches_nothing, decimal_all_digits. }
  assert (Hsheet : forall role, name_matches (sheet_keywords role) name = false).
  { intro role. destruct (name_matches (sheet_keywords role) name) eqn:M;
      [|reflexivity].
    apply (@name_matches_incl _ _ name (sheet_in_full role)) in M.
    rewrite Hfull in M. discriminate. }
  assert (Hshort : forall role, name_matches (short_keywords role) name = false).
  { intro role. destruct (name_matches (short_keywords role) name) eqn:M;
      [|reflexivity].
    apply (@name_matches_incl _ _ name (short_in_sheet role)) in M.
    rewrite Hsheet in M. discriminate. }
  intros role cands.
  assert (Hfb : entry role (ExcelAnalyzer.classify_openpyxl sheet) = Some cands ->
                cands = filter (name_matches (sheet_keywords role))
                          (columns sheet)).
  { rewrite fallback_entry. destruct role; congruence. }
  rewrite pandas_entry, script_entry, sheet_entry.
  intros [H|[H|[H|H]]] Hin.
  - injection H as <-. apply filter_In in Hin as [_ M].
    rewrite Hfull in M. discriminate.
  - rewrite (Hfb H) in Hin. apply filter_In in Hin as [_ M].
    rewrite Hsheet in M. discriminate.
  - injection H as <-. apply filter_In in Hin as [_ M].
    rewrite Hshort in M. discriminate.
  - injection H as <-. apply filter_In in Hin as [_ M].
    rewrite Hsheet in M. discriminate.
Qed.

Lemma blank_header_is_never_classified_witness :
  1 <= 2 <= 3 /\
  nth (2 - 1) [Some "ArtikelNr"; None; Some "Status"] None = None /\
  columns (mkDataset (column_names 3 [Some "ArtikelNr"; None; Some "Status"]) [])
  = ["ArtikelNr"; "Column_2"; "Status"] /\
  nth (2 - 1) (column_names 3 [Some "ArtikelNr"; None; Some "Status"])
      EmptyString = "Column_2".
Proof.
  assert (Hcol : 1 <= 2 <= 3) by lia.
  assert (Hblank : nth (2 - 1) [Some "ArtikelNr"; None; Some "Status"] None
                   = None) by reflexivity.
  destruct (@blank_header_is_never_classified 3
              [Some "ArtikelNr"; None; Some "Status"] [] 2 Hcol Hblank)
    as (Hname & _ & _).
  split; [exact Hcol|]. split; [exact Hblank|].
  split; [reflexivity|]. exact Hname.
Defined.

(** Two columns with empty header cells never get the same name. *)
Theorem placeholders_are_distinct (max_column : nat)
    (header : list (option string)) (col1 col2 : nat) :
  1 <= col1 <= max_column ->
  1 <= col2 <= max_column ->
  nth (col1 - 1) header None = None ->
  nth (col2 - 1) header None = None ->
  col1 <> col2 ->
  nth (col1 - 1) (column_names max_column header) EmptyString
  <> nth (col2 - 1) (column_names max_column header) EmptyString.
Proof.
  intros H1 H2 B1 B2 Hne.
  rewrite (@nth_column_names max_column header col1 H1), B1.
  rewrite (@nth_column_names max_column header col2 H2), B2.
  intro E. simpl in E. injection E as E.
  apply Hne, decimal_inj, E.
Qed.

Lemma placeholders_are_distinct_witness :
  1 <= 1 <= 12 /\ 1 <= 11 <= 12 /\
  nth (1 - 1) (@nil (option string)) None = None /\
  nth (11 - 1) (@nil (option string)) None = None /\
  1 <> 11 /\
  nth (1 - 1) (column_names 12 []) EmptyString
  <> nth (11 - 1) (column_names 12 []) EmptyString.
Proof.
  assert (H1 : 1 <= 1 <= 12) by lia.
  assert (H2 : 1 <= 11 <= 12) by lia.
  assert (B1 : nth (1 - 1) (@nil (option string)) None = None) by reflexivity.
  assert (B2 : nth (11 - 1) (@nil (option string)) None = None) by reflexivity.
  assert (Hne : 1 <> 11) by lia.
  repeat (split; [assumption|]).
  exact (@placeholders_are_distinct 12 [] 1 11 H1 H2 B1 B2 Hne).
Defined.

(** ** Shape of the candidate lists *)

Lemma any_path_filters (ds : TabularDataset) (role : SemanticRole)
    (cands : list string) :
  entry role (ExcelAnalyzer.classify ds) = Some cands \/
  entry role (ExcelAnalyzer.classify_openpyxl ds) = Some cands \/
  entry role (AnalyzeExcelFiles.classify ds) = Some cands \/
  entry role (AnalyzeWithOpenpyxl.classify ds) = Some cands ->
  exists kws,
    incl (short_keywords role) kws /\
    cands = filter (name_matches kws) (columns ds).
Proof.
  rewrite pandas_entry, fallback_entry, script_entry, sheet_entry.
  intros [H|[H|[H|H]]].
  - exists (full_keywords role). split; [|congruence].
    intros kw Hkw. apply sheet_in_full, short_in_sheet, Hkw.
  - exists (sheet_keywords role). split; [apply short_in_sheet|].
    destruct role; congruence.
  - exists (short_keywords role). split; [apply incl_refl|congruence].
  - exists (sheet_keywords role). split; [apply short_in_sheet|congruence].
Qed.

(** On every path a candidate list is a selection from the column sequence
    in the column order: each candidate is a column, no list is longer than
    the header, and when the column names are distinct no candidate is
    listed twice. *)
Theorem candidates_are_a_selection (ds : TabularDataset)
    (role : SemanticRole) (cands : list string) :
  entry role (ExcelAnalyzer.classify ds) = Some cands \/
  entry role (ExcelAnalyzer.classify_openpyxl ds) = Some cands \/
  entry role (AnalyzeExcelFiles.classify ds) = Some cands \/
  entry role (AnalyzeWithOpenpyxl.classify ds) = Some cands ->
  incl cands (columns ds) /\
  List.length cands <= List.length (columns ds) /\
  (NoDup (columns ds) -> NoDup cands) /\
  (forall before c after,
     columns ds = before ++ c :: after ->
     In c cands ->
     cands = filter (fun x => if in_dec string_dec x cands then true else false)
               before
             ++ c :: filter (fun x => if in_dec string_dec x cands
                                      then true else false) after).
Proof.
  intro H. destruct (any_path_filters ds role H) as (kws & _ & E).
  split; [rewrite E; apply incl_filter|].
  split; [rewrite E; apply filter_length_le|].
  split; [intro Hnd; rewrite E; now apply NoDup_filter|].
  intros before c after Hcols Hc.
  assert (Hsame : forall l,
             incl l (columns ds) ->
             filter (fun x => if in_dec string_dec x cands then true else false) l
             = filter (name_matches kws) l).
  { intros l Hl. apply filter_ext_in. intros x Hx.
    destruct (in_dec string_dec x cands) as [Hi|Hn].
    - rewrite E in Hi. apply filter_In in Hi as [_ M]. now rewrite M.
    - destruct (name_matches kws x) eqn:M; [|reflexivity].
      elim Hn. rewrite E. apply filter_In. split; [now apply Hl|exact M]. }
  rewrite !Hsame.
  - rewrite E at 1. rewrite Hcols, filter_app. cbn [filter].
    rewrite E in Hc. apply filter_In in Hc as [_ M]. now rewrite M.
  - rewrite Hcols. intros x Hx. apply in_or_app. right. now right.
  - rewrite Hcols. intros x Hx. apply in_or_app. now left.
Qed.

Lemma candidates_are_a_selection_witness :
  incl ["QuantityRem1"] (columns scenario) /\
  NoDup (columns scenario) /\
  NoDup ["QuantityRem1"].
Proof.
  assert (H : entry Quantity (ExcelAnalyzer.classify scenario)
              = Some ["QuantityRem1"]) by reflexivity.
  destruct (@candidates_are_a_selection scenario Quantity ["QuantityRem1"]
              (or_introl H)) as (Hincl & _ & Hnd & _).
  assert (Hcols : NoDup (columns scenario)) by distinct_labels.
  split; [exact Hincl|]. split; [exact Hcols|exact (Hnd Hcols)].
Defined.

(** Whenever the rule's column is present, every path lists it among its
    Quantity candidates: the rule never runs on a column the classification
    missed. *)
Theorem sentinel_is_a_quantity_candidate (ds : TabularDataset) :
  In sentinel (columns ds) ->
  forall path,
    In path [ExcelAnalyzer.classify; ExcelAnalyzer.classify_openpyxl;
             AnalyzeExcelFiles.classify; AnalyzeWithOpenpyxl.classify] ->
    exists cands,
      entry Quantity (path ds) = Some cands /\ In sentinel cands.
Proof.
  intros Hin path Hpath.
  assert (M : forall kws, incl (short_keywords Quantity) kws ->
                In sentinel (filter (name_matches kws) (columns ds))).
  { intros kws Hk. apply filter_In. split; [exact Hin|].
    apply (@name_matches_incl _ _ sentinel Hk). reflexivity. }
  simpl in Hpath. destruct Hpath as [<-|[<-|[<-|[<-|[]]]]]; eexists.
  - split; [apply pandas_entry|].
    apply M. intros kw Hkw. apply sheet_in_full, short_in_sheet, Hkw.
  - split; [apply (fallback_entry ds Quantity)|].
    apply M, short_in_sheet.
  - split; [apply script_entry|]. apply M, incl_refl.
  - split; [apply sheet_entry|]. apply M, short_in_sheet.
Qed.

Lemma sentinel_is_a_quantity_candidate_witness :
  In sentinel (columns scenario) /\
  exists cands,
    entry Quantity (AnalyzeExcelFiles.classify scenario) = Some cands /\
    In sentinel cands.
Proof.
  assert (Hin : In sentinel (columns scenario)) by (simpl; auto).
  split; [exact Hin|].
  apply (@sentinel_is_a_quantity_candidate scenario Hin
           AnalyzeExcelFiles.classify).
  simpl. auto.
Defined.

(** ** Recommendations *)

Lemma chosen_first_match {A : Type} (p : A -> bool) (l : list A) :
  match match filter p l with [] => None | c :: _ => Some c end with
  | Some c =>
      exists before after,
        l = before ++ c :: after /\ p c = true /\
        Forall (fun x => p x = false) before
  | None => Forall (fun x => p x = false) l
  end.
Proof.
  induction l as [|x l IH]; simpl; [constructor|].
  destruct (p x) eqn:E.
  - exists [], l. repeat split; auto.
  - destruct (filter p l) as [|c rest].
    + constructor; auto.
    + destruct IH as (before & after & -> & Hc & Hb).
      exists (x :: before), after. repeat split; auto.
Qed.

Lemma pandas_report_fields (df : TabularDataset)
    (report : ExcelAnalyzer.Report) :
  ExcelAnalyzer.analyze_with_pandas df = Ok report ->
  ExcelAnalyzer.candidates report = ExcelAnalyzer.classify df /\
  ExcelAnalyzer.quantity_stats report = snd (ExcelAnalyzer.column_analysis df) /\
  ExcelAnalyzer.remaining_quantity_rule df
    = Ok (ExcelAnalyzer.finding report) /\
  ExcelAnalyzer.use_article report
    = chosen (filter (name_matches (full_keywords ArticleNumber)) (columns df)) /\
  ExcelAnalyzer.use_project report
    = chosen (filter (name_matches (full_keywords ProjectNumber)) (columns df)).
Proof.
  unfold ExcelAnalyzer.analyze_with_pandas.
  destruct (ExcelAnalyzer.remaining_quantity_rule df) as [f|e];
    [|discriminate].
  cbn [bind]. cbn zeta.
  change (fst (ExcelAnalyzer.column_analysis df))
    with (ExcelAnalyzer.classify df).
  rewrite !pandas_entry.
  intro H. injection H as <-. repeat split.
Qed.

(** When [analyze_with_pandas] reaches its recommendations, the column it
    recommends for the article number (for the project number) is the
    first column, in header order, whose name matches the role's keywords;
    it recommends none exactly when no column matches. *)
Theorem recommendation_is_first_match (df : TabularDataset)
    (report : ExcelAnalyzer.Report) :
  ExcelAnalyzer.analyze_with_pandas df = Ok report ->
  (forall role use,
     (role = ArticleNumber /\ use = ExcelAnalyzer.use_article report) \/
     (role = ProjectNumber /\ use = ExcelAnalyzer.use_project report) ->
     match use with
     | Some c =>
         exists before after,
           columns df = before ++ c :: after /\
           name_matches (full_keywords role) c = true /\
           Forall (fun x => name_matches (full_keywords role) x = false) before
     | None =>
         Forall (fun x => name_matches (full_keywords role) x = false)
                (columns df)
     end).
Proof.
  intro H.
  destruct (pandas_report_fields df H) as (_ & _ & _ & Ha & Hp).
  intros role use [[-> ->]|[-> ->]]; [rewrite Ha|rewrite Hp];
    unfold chosen; apply chosen_first_match.
Qed.

Lemma recommendation_is_first_match_witness :
  exists report,
    ExcelAnalyzer.analyze_with_pandas scenario = Ok report /\
    ExcelAnalyzer.use_article report = Some "ArtikelNr" /\
    ExcelAnalyzer.use_project report = None /\
    Forall (fun x => name_matches (full_keywords ProjectNumber) x = false)
           (columns scenario).
Proof.
  destruct (ExcelAnalyzer.analyze_with_pandas scenario) as [report|e] eqn:E;
    [|vm_compute in E; discriminate].
  exists report. split; [reflexivity|].
  pose proof (@recommendation_is_first_match scenario report E
                ProjectNumber (ExcelAnalyzer.use_project report)
                (or_intror (conj eq_refl eq_refl))) as H.
  vm_compute in E. injection E as <-.
  split; [reflexivity|]. split; [reflexivity|]. exact H.
Defined.

(** ** When the analysis completes *)

Ltac split_hyp :=
  match goal with
  | H : _ /\ _ |- _ => destruct H
  | H : _ \/ _ |- _ => destruct H
  | H : exists _, _ |- _ => destruct H
  end.

Lemma no_rows_no_values (ds : TabularDataset) :
  rows ds = [] -> sentinel_values ds = [].
Proof.
  unfold sentinel_values, getitem. now intros ->.
Qed.

Lemma pandas_outcome_cases (df : TabularDataset) :
  ExcelAnalyzer.analyze_with_pandas df =
  if name_in sentinel (columns df) then
    if forallb null_or_number (sentinel_values df) then
      match rows df with
      | [] => Raise ZeroDivisionError
      | _ :: _ =>
          match ExcelAnalyzer.analyze_with_pandas df with
          | Ok report => Ok report
          | Raise _ => Raise ZeroDivisionError
          end
      end
    else Raise TypeError
  else ExcelAnalyzer.analyze_with_pandas df.
Proof.
  destruct (name_in sentinel (columns df)) eqn:N; [|reflexivity].
  unfold ExcelAnalyzer.analyze_with_pandas.
  rewrite pandas_rule_spec, N.
  destruct (forallb null_or_number (sentinel_values df)); [|reflexivity].
  destruct (rows df); reflexivity.
Qed.

Lemma pandas_completes_when (df : TabularDataset) :
  name_in sentinel (columns df) = false \/
  (forallb null_or_number (sentinel_values df) = true /\ rows df <> []) ->
  exists report, ExcelAnalyzer.analyze_with_pandas df = Ok report.
Proof.
  unfold ExcelAnalyzer.analyze_with_pandas. rewrite pandas_rule_spec.
  intros [N|[F R]].
  - rewrite N. cbn [bind]. eexists. reflexivity.
  - destruct (name_in sentinel (columns df)); [|cbn [bind]; eexists; reflexivity].
    rewrite F. destruct (rows df); [now elim R|].
    cbn [bind]. eexists. reflexivity.
Qed.

(** [analyze_with_pandas] ends in exactly one of three ways.  It raises
    ZeroDivisionError when the frame has the QuantityRem1 column and no
    row; it raises TypeError when that column holds a text or a date; in
    every other case it completes with a report. *)
Theorem pandas_outcome (df : TabularDataset) :
  frame_labels_distinct df ->
  (ExcelAnalyzer.analyze_with_pandas df = Raise ZeroDivisionError <->
   In sentinel (columns df) /\ rows df = []) /\
  (ExcelAnalyzer.analyze_with_pandas df = Raise TypeError <->
   In sentinel (columns df) /\
   forallb null_or_number (sentinel_values df) = false) /\
  ((exists report, ExcelAnalyzer.analyze_with_pandas df = Ok report) <->
   ~ In sentinel (columns df) \/
   (forallb null_or_number (sentinel_values df) = true /\ rows df <> [])).
Proof.
  intros _. rewrite <- name_in_iff.
  pose proof (pandas_outcome_cases df) as Hcases.
  pose proof (pandas_completes_when df) as Hok.
  pose proof (no_rows_no_values df) as Hempty.
  destruct (name_in sentinel (columns df)) eqn:N;
    [destruct (forallb null_or_number (sentinel_values df)) eqn:F;
     [destruct (rows df) as [|row l] eqn:R|]|].
  - rewrite Hcases.
    repeat split; intros; repeat split_hyp;
      first [congruence | split; congruence].
  - destruct Hok as [r Hr]; [right; split; [reflexivity|discriminate]|].
    rewrite Hr.
    repeat split; intros; repeat split_hyp;
      first [congruence | now exists r | right; split; congruence].
  - rewrite Hcases.
    repeat split; intros; repeat split_hyp;
      first [congruence | split; congruence
            | match goal with
              | R : rows df = [] |- _ =>
                  rewrite (Hempty R) in F; discriminate
              end].
  - destruct Hok as [r Hr]; [now left|].
    rewrite Hr.
    repeat split; intros; repeat split_hyp;
      first [congruence | now exists r | left; congruence].
Qed.

Lemma pandas_outcome_witness :
  frame_labels_distinct header_only /\
  In sentinel (columns header_only) /\ rows header_only = [] /\
  ExcelAnalyzer.analyze_with_pandas header_only = Raise ZeroDivisionError /\
  frame_labels_distinct near_miss /\
  ~ In sentinel (columns near_miss) /\
  exists report, ExcelAnalyzer.analyze_with_pandas near_miss = Ok report.
Proof.
  assert (Hd : frame_labels_distinct header_only) by distinct_labels.
  assert (Hd' : frame_labels_distinct near_miss) by distinct_labels.
  assert (Hin : In sentinel (columns header_only)) by (simpl; auto).
  assert (Hno : ~ In sentinel (columns near_miss))
    by (simpl; intuition discriminate).
  destruct (@pandas_outcome header_only Hd) as (Hz & _ & _).
  destruct (@pandas_outcome near_miss Hd') as (_ & _ & Hc).
  split; [exact Hd|]. split; [exact Hin|]. split; [reflexivity|].
  split; [exact (proj2 Hz (conj Hin eq_refl))|].
  split; [exact Hd'|]. split; [exact Hno|].
  exact (proj2 Hc (or_introl Hno)).
Defined.

(** ** Percentages of an empty bucket *)

Section EmptyBucket.

Local Open Scope Z_scope.

Lemma digits2_pos_lower (p : positive) :
  2 ^ (Zpos (digits2_pos p) - 1) <= Zpos p.
Proof.
  induction p as [p IH|p IH|]; cbn [digits2_pos].
  - rewrite Pos2Z.inj_succ.
    replace (Z.succ (Zpos (digits2_pos p)) - 1)
      with (Z.succ (Zpos (digits2_pos p) - 1)) by lia.
    rewrite Z.pow_succ_r by lia. lia.
  - rewrite Pos2Z.inj_succ.
    replace (Z.succ (Zpos (digits2_pos p)) - 1)
      with (Z.succ (Zpos (digits2_pos p) - 1)) by lia.
    rewrite Z.pow_succ_r by lia. lia.
  - simpl. lia.
Qed.

Lemma digits2_pos_small (p : positive) :
  Zpos p < 2 ^ 53 -> Zpos (digits2_pos p) <= 53.
Proof.
  intro H. pose proof (digits2_pos_lower p) as L.
  destruct (Z.le_gt_cases (Zpos (digits2_pos p)) 53) as [|G]; [assumption|].
  exfalso.
  assert (2 ^ 53 <= 2 ^ (Zpos (digits2_pos p) - 1))
    by (apply Z.pow_le_mono_r; lia).
  lia.
Qed.

Lemma digits2_pos_iter (p k : positive) :
  Zpos (digits2_pos (Pos.iter xO p k)) = Zpos (digits2_pos p) + Zpos k.
Proof.
  induction k as [|k IH] using Pos.peano_ind.
  - simpl. lia.
  - rewrite Pos.iter_succ. cbn [digits2_pos].
    rewrite Pos2Z.inj_succ, IH. lia.
Qed.

Lemma round_canonical (s : bool) (m : positive) (e : Z) :
  fexp prec emax (Zpos (digits2_pos m) + e) = e ->
  e <= emax - prec ->
  binary_round_aux prec emax s (Zpos m) e loc_Exact = S754_finite s m e.
Proof.
  intros Hc He.
  unfold binary_round_aux, shr_fexp. cbn [Zdigits2 shr_record_of_loc].
  rewrite Hc, Z.sub_diag. cbn [shr shr_m loc_of_shr_record round_nearest_even].
  cbn [Zdigits2 shr_record_of_loc]. rewrite Hc, Z.sub_diag. cbn [shr shr_m].
  apply Z.leb_le in He. now rewrite He.
Qed.

Lemma float_of_small_count (p : positive) :
  Zpos p < 2 ^ 53 ->
  exists m e, float_of_int (Zpos p) = S754_finite false m e.
Proof.
  intro H. apply digits2_pos_small in H.
  unfold float_of_int, binary_normalize, binary_round.
  assert (Hf : fexp prec emax (Zpos (digits2_pos p) + 0)
               = Zpos (digits2_pos p) - 53).
  { unfold fexp, SpecFloat.emin, prec, emax. lia. }
  rewrite Hf. unfold shl_align.
  destruct (Zpos (digits2_pos p) - 53 - 0) as [|k|k] eqn:E; try lia.
  - do 2 eexists. apply round_canonical.
    + unfold fexp, SpecFloat.emin, prec, emax. lia.
    + unfold prec, emax. lia.
  - do 2 eexists. apply round_canonical.
    + rewrite digits2_pos_iter. unfold fexp, SpecFloat.emin, prec, emax. lia.
    + unfold prec, emax. lia.
Qed.

Lemma percent_of_none (total : nat) :
  (0 < total)%nat ->
  Z.of_nat total < 2 ^ 53 ->
  percent 0 total = Ok (S754_zero false).
Proof.
  intros Hpos Hsmall. rewrite percent_spec.
  destruct total as [|n]; [lia|].
  destruct (Z.of_nat (S n)) as [|p|p] eqn:E; try lia.
  destruct (@float_of_small_count p Hsmall) as (m & e & ->).
  reflexivity.
Qed.

End EmptyBucket.

(** A bucket that no row falls into is reported as exactly 0.0 percent
    (row counts below 2^53 convert to a double without rounding). *)
Theorem empty_bucket_is_zero_percent (df : TabularDataset)
    (f : ExcelAnalyzer.RuleFinding) :
  ExcelAnalyzer.remaining_quantity_rule df = Ok (Some f) ->
  (Z.of_nat (ExcelAnalyzer.total f) < 2 ^ 53)%Z ->
  (ExcelAnalyzer.zero_count f = 0 ->
   ExcelAnalyzer.percent_zero f = S754_zero false) /\
  (ExcelAnalyzer.non_zero_count f = 0 ->
   ExcelAnalyzer.percent_positive f = S754_zero false).
Proof.
  intros Hf Hsmall.
  destruct (percentages_defined df Hf) as (Hpos & Hz & Hp).
  pose proof (@percent_of_none (ExcelAnalyzer.total f) Hpos Hsmall) as H0.
  split; intro E; rewrite E in *; congruence.
Qed.

(** A sheet whose QuantityRem1 column is blank in every row: both counts
    are 0, the total is the number of rows and both percentages are 0.0;
    the two scripts that only count agree on (0, 0). *)
Theorem blank_column_finding (df : TabularDataset) :
  frame_labels_distinct df ->
  In sentinel (columns df) ->
  rows df <> [] ->
  (Z.of_nat (List.length (rows df)) < 2 ^ 53)%Z ->
  forallb is_nullb (sentinel_values df) = true ->
  ExcelAnalyzer.remaining_quantity_rule df
    = Ok (Some (ExcelAnalyzer.mkFinding 0 0 (List.length (rows df))
                  (S754_zero false) (S754_zero false))) /\
  AnalyzeExcelFiles.remaining_quantity_rule df = Ok (Some (0, 0)) /\
  AnalyzeWithOpenpyxl.remaining_quantity_rule df = Ok (Some (0, 0)).
Proof.
  intros _ Hin Hrows Hsmall Hblank.
  apply name_in_iff in Hin.
  assert (Hcount : forall p l, forallb is_nullb l = true ->
            (forall v, is_nullb v = true -> p v = false) -> count p l = 0).
  { intros p l Hl Hp. unfold count.
    induction l as [|v l IH]; [reflexivity|].
    simpl in Hl. apply andb_true_iff in Hl as [Hv Hl].
    simpl. rewrite (Hp v Hv). now apply IH. }
  assert (Hnum : forallb null_or_number (sentinel_values df) = true).
  { apply forallb_forall. intros v Hv.
    rewrite forallb_forall in Hblank. specialize (Hblank v Hv).
    now destruct v. }
  assert (Hz : forall l, forallb is_nullb l = true -> count is_zerob l = 0).
  { intros l Hl. apply Hcount; [exact Hl|]. now intros []. }
  assert (Hp : forall l, forallb is_nullb l = true -> count is_positiveb l = 0).
  { intros l Hl. apply Hcount; [exact Hl|]. now intros []. }
  split; [|split].
  - rewrite pandas_rule_spec, Hin, Hnum.
    destruct (rows df) as [|row l] eqn:R; [now elim Hrows|].
    cbn zeta. rewrite (Hz _ Hblank), (Hp _ Hblank).
    assert (Hpos : 0 < List.length (row :: l)) by (simpl; lia).
    pose proof (@percent_of_none (List.length (row :: l)) Hpos Hsmall) as P.
    rewrite percent_spec in P. cbn [Datatypes.length] in P |- *.
    match type of P with
    | Ok ?x = _ =>
        assert (Hx : x = S754_zero false) by congruence; now rewrite Hx
    end.
  - rewrite script_rule_spec, Hin, Hnum.
    now rewrite (Hz _ Hblank), (Hp _ Hblank).
  - rewrite openpyxl_rule_spec, Hin. cbn zeta.
    rewrite (forallb_firstn _ 998 _ (null_or_number_countable _ Hnum)).
    now rewrite (Hz _ (forallb_firstn _ 998 _ Hblank)),
                (Hp _ (forallb_firstn _ 998 _ Hblank)).
Qed.

Lemma blank_column_finding_witness :
  frame_labels_distinct blank_quantity /\
  In sentinel (columns blank_quantity) /\
  rows blank_quantity <> [] /\
  (Z.of_nat (List.length (rows blank_quantity)) < 2 ^ 53)%Z /\
  forallb is_nullb (sentinel_values blank_quantity) = true /\
  ExcelAnalyzer.remaining_quantity_rule blank_quantity
    = Ok (Some (ExcelAnalyzer.mkFinding 0 0 3
                  (S754_zero false) (S754_zero false))).
Proof.
  assert (Hd : frame_labels_distinct blank_quantity) by distinct_labels.
  assert (Hin : In sentinel (columns blank_quantity)) by (simpl; auto).
  assert (Hrows : rows blank_quantity <> []) by discriminate.
  assert (Hsmall : (Z.of_nat (List.length (rows blank_quantity)) < 2 ^ 53)%Z)
    by reflexivity.
  assert (Hblank : forallb is_nullb (sentinel_values blank_quantity) = true)
    by reflexivity.
  repeat (split; [assumption|]).
  exact (proj1 (@blank_column_finding blank_quantity
                  Hd Hin Hrows Hsmall Hblank)).
Defined.

Lemma empty_bucket_is_zero_percent_witness :
  exists f,
    ExcelAnalyzer.remaining_quantity_rule blank_quantity = Ok (Some f) /\
    (Z.of_nat (ExcelAnalyzer.total f) < 2 ^ 53)%Z /\
    ExcelAnalyzer.zero_count f = 0 /\
    ExcelAnalyzer.percent_zero f = S754_zero false.
Proof.
  exists (ExcelAnalyzer.mkFinding 0 0 3 (S754_zero false) (S754_zero false)).
  assert (Hf : ExcelAnalyzer.remaining_quantity_rule blank_quantity
               = Ok (Some (ExcelAnalyzer.mkFinding 0 0 3
                             (S754_zero false) (S754_zero false))))
    by (vm_compute; reflexivity).
  assert (Hsmall : (Z.of_nat 3 < 2 ^ 53)%Z) by reflexivity.
  split; [exact Hf|]. split; [exact Hsmall|]. split; [reflexivity|].
  exact (proj1 (@empty_bucket_is_zero_percent blank_quantity _ Hf Hsmall)
           eq_refl).
Defined.

(** ** The counting paths against each other *)

Lemma nth_map_null (g : cell -> cell) (n : nat) (row : list cell) :
  g VNull = VNull ->
  nth n (map g row) VNull = g (nth n row VNull).
Proof.
  intro Hg. revert n. induction row as [|v row IH]; intros [|n]; simpl; auto.
Qed.

Lemma sentinel_values_with_cells (g : cell -> cell) (ds : TabularDataset) :
  g VNull = VNull ->
  sentinel_values (with_cells g ds) = map g (sentinel_values ds).
Proof.
  intro Hg. unfold sentinel_values, getitem, with_cells. cbn [columns rows].
  rewrite !map_map. apply map_ext. intro row. now apply nth_map_null.
Qed.

Lemma frame_of_sheet_with_cells (sheet df : TabularDataset) :
  frame_of_sheet sheet df <-> df = with_cells read_cell sheet.
Proof.
  unfold frame_of_sheet, with_cells. destruct df as [c r]. cbn [columns rows].
  split.
  - now intros [-> ->].
  - intro E. injection E as -> ->. split; reflexivity.
Qed.

Lemma sentinel_values_read (sheet df : TabularDataset) :
  frame_of_sheet sheet df ->
  sentinel_values df = map read_cell (sentinel_values sheet).
Proof.
  intro H. apply frame_of_sheet_with_cells in H. subst df.
  now apply sentinel_values_with_cells.
Qed.

Lemma count_map_same (p : cell -> bool) (g : cell -> cell) (l : list cell) :
  (forall v, p (g v) = p v) -> count p (map g l) = count p l.
Proof.
  intro H. unfold count. induction l as [|v l IH]; simpl; [reflexivity|].
  rewrite H. destruct (p v); simpl; now rewrite IH.
Qed.


Lemma read_keeps_zero (v : cell) : is_zerob (read_cell v) = is_zerob v.
Proof.
  destruct v as [|q|s|d]; try reflexivity. unfold read_cell.
  now destruct (name_in s na_values).
Qed.

Lemma read_keeps_positive (v : cell) :
  is_positiveb (read_cell v) = is_positiveb v.
Proof.
  destruct v as [|q|s|d]; try reflexivity. unfold read_cell.
  now destruct (name_in s na_values).
Qed.

Lemma countable_reads_as_number (l : list cell) :
  forallb countable l = true ->
  forallb null_or_number (map read_cell l) = true.
Proof.
  induction l as [|v l IH]; simpl; [reflexivity|].
  intro H. apply andb_true_iff in H as [Hv Hl].
  rewrite (IH Hl), andb_true_r.
  destruct v as [|q|s|d]; try reflexivity; try discriminate.
  destruct s; [reflexivity|discriminate].
Qed.

(** The functions that count agree where they overlap.  On one frame the
    counts of [analyze_with_pandas] are those of analyze_excel_files.py,
    and the script also completes on a frame without rows.  For one
    workbook seen through both loaders: when the loop of
    analyze_with_openpyxl.py completes on a sheet of at most 998 data rows,
    the script completes on the frame with the same two counts; and
    whenever both complete, the loop's counts are never the larger ones. *)
Theorem counting_paths_agree (df sheet : TabularDataset) :
  frame_labels_distinct df ->
  (forall f,
     ExcelAnalyzer.remaining_quantity_rule df = Ok (Some f) ->
     AnalyzeExcelFiles.remaining_quantity_rule df
     = Ok (Some (ExcelAnalyzer.zero_count f, ExcelAnalyzer.non_zero_count f))) /\
  (forall zero_count non_zero_count,
     AnalyzeExcelFiles.remaining_quantity_rule df
       = Ok (Some (zero_count, non_zero_count)) ->
     rows df <> [] ->
     exists f,
       ExcelAnalyzer.remaining_quantity_rule df = Ok (Some f) /\
       ExcelAnalyzer.zero_count f = zero_count /\
       ExcelAnalyzer.non_zero_count f = non_zero_count) /\
  (frame_of_sheet sheet df ->
   forall sampled_zero sampled_non_zero,
     AnalyzeWithOpenpyxl.remaining_quantity_rule sheet
       = Ok (Some (sampled_zero, sampled_non_zero)) ->
     (List.length (rows sheet) <= 998 ->
      AnalyzeExcelFiles.remaining_quantity_rule df
      = Ok (Some (sampled_zero, sampled_non_zero))) /\
     (forall zero_count non_zero_count,
        AnalyzeExcelFiles.remaining_quantity_rule df
          = Ok (Some (zero_count, non_zero_count)) ->
        sampled_zero <= zero_count /\ sampled_non_zero <= non_zero_count)).
Proof.
  intros _. split; [|split].
  - intro f. rewrite pandas_rule_spec, script_rule_spec.
    destruct (name_in sentinel (columns df)); [|discriminate].
    destruct (forallb null_or_number (sentinel_values df)); [|discriminate].
    destruct (rows df); [discriminate|].
    cbn zeta. intro H. injection H as <-. reflexivity.
  - intros z nz. rewrite pandas_rule_spec, script_rule_spec.
    destruct (name_in sentinel (columns df)); [|discriminate].
    destruct (forallb null_or_number (sentinel_values df)); [|discriminate].
    intros H Hrows. injection H as <- <-.
    destruct (rows df); [now elim Hrows|].
    cbn zeta. eexists. split; [reflexivity|]. split; reflexivity.
  - intros Hread z' nz'.
    pose proof (sentinel_values_read Hread) as Hvals.
    destruct Hread as [Hcols _].
    rewrite openpyxl_rule_spec, script_rule_spec, Hcols, Hvals.
    destruct (name_in sentinel (columns sheet)); [|discriminate].
    cbn zeta.
    remember (firstn 998 (sentinel_values sheet)) as sample eqn:Es.
    destruct (forallb countable sample) eqn:Hc; [|discriminate].
    intro H. injection H as <- <-.
    rewrite (count_map_same is_zerob read_cell _ read_keeps_zero).
    rewrite (count_map_same is_positiveb read_cell _ read_keeps_positive).
    split.
    + intro Hshort.
      rewrite firstn_all2 in Es
        by (rewrite sentinel_values_length; exact Hshort).
      subst sample. now rewrite (countable_reads_as_number _ Hc).
    + intros z nz.
      destruct (forallb null_or_number (map read_cell (sentinel_values sheet)));
        [|discriminate].
      intro H. injection H as <- <-. subst sample.
      split; apply count_firstn_le.
Qed.

Lemma counting_paths_agree_witness :
  frame_labels_distinct scenario /\
  frame_of_sheet scenario scenario /\
  AnalyzeWithOpenpyxl.remaining_quantity_rule scenario = Ok (Some (1, 1)) /\
  List.length (rows scenario) <= 998 /\
  rows scenario <> [] /\
  AnalyzeExcelFiles.remaining_quantity_rule scenario = Ok (Some (1, 1)) /\
  (exists f,
     ExcelAnalyzer.remaining_quantity_rule scenario = Ok (Some f) /\
     ExcelAnalyzer.zero_count f = 1 /\ ExcelAnalyzer.non_zero_count f = 1).
Proof.
  assert (Hd : frame_labels_distinct scenario) by distinct_labels.
  assert (Hr : frame_of_sheet scenario scenario) by (split; reflexivity).
  assert (Ho : AnalyzeWithOpenpyxl.remaining_quantity_rule scenario
               = Ok (Some (1, 1))) by reflexivity.
  assert (Hshort : List.length (rows scenario) <= 998) by (simpl; lia).
  assert (Hrows : rows scenario <> []) by discriminate.
  destruct (@counting_paths_agree scenario scenario Hd) as (_ & Hp & Hs).
  destruct (Hs Hr 1 1 Ho) as [Hscript _].
  split; [exact Hd|]. split; [exact Hr|]. split; [exact Ho|].
  split; [exact Hshort|]. split; [exact Hrows|].
  split; [exact (Hscript Hshort)|].
  exact (Hp 1 1 (Hscript Hshort) Hrows).
Defined.

(** The loop of analyze_with_openpyxl.py never looks past the first 1000
    data rows: two sheets with the same header and the same first 1000
    data rows get the same result, whatever follows. *)
Theorem loop_ignores_later_rows (sheet1 sheet2 : TabularDataset) :
  columns sheet1 = columns sheet2 ->
  firstn 1000 (rows sheet1) = firstn 1000 (rows sheet2) ->
  AnalyzeWithOpenpyxl.remaining_quantity_rule sheet1
  = AnalyzeWithOpenpyxl.remaining_quantity_rule sheet2.
Proof.
  intros Hcols Hrows. rewrite !openpyxl_rule_spec. cbn zeta.
  unfold sentinel_values, getitem.
  assert (Hsample : firstn 998 (rows sheet1) = firstn 998 (rows sheet2)).
  { replace (firstn 998 (rows sheet1))
      with (firstn 998 (firstn 1000 (rows sheet1)))
      by (now rewrite firstn_firstn).
    replace (firstn 998 (rows sheet2))
      with (firstn 998 (firstn 1000 (rows sheet2)))
      by (now rewrite firstn_firstn).
    now rewrite Hrows. }
  now rewrite !firstn_map, Hcols, Hsample.
Qed.

Lemma loop_ignores_later_rows_witness :
  columns thousand_rows = columns thousand_rows_then_text /\
  firstn 1000 (rows thousand_rows)
    = firstn 1000 (rows thousand_rows_then_text) /\
  AnalyzeWithOpenpyxl.remaining_quantity_rule thousand_rows
    = AnalyzeWithOpenpyxl.remaining_quantity_rule thousand_rows_then_text /\
  (exists counts,
     AnalyzeWithOpenpyxl.remaining_quantity_rule thousand_rows_then_text
       = Ok (Some counts)) /\
  AnalyzeExcelFiles.remaining_quantity_rule thousand_rows_then_text
    = Raise TypeError.
Proof.
  assert (Hc : columns thousand_rows = columns thousand_rows_then_text)
    by reflexivity.
  assert (Hr : firstn 1000 (rows thousand_rows)
               = firstn 1000 (rows thousand_rows_then_text))
    by (vm_compute; reflexivity).
  split; [exact Hc|]. split; [exact Hr|].
  split;
    [exact (@loop_ignores_later_rows thousand_rows thousand_rows_then_text
              Hc Hr)|].
  split.
  - eexists. vm_compute. reflexivity.
  - vm_compute. reflexivity.
Defined.




(** A text that [pd.read_excel] takes for a missing value, such as n/a,
    divides the paths on one workbook: on a sheet of at most 998 data rows
    the loop of analyze_with_openpyxl.py raises TypeError on it, while the
    frame holds NaN in its place, so that [analyze_with_pandas] completes
    with a finding when the other values are numbers, blanks or such
    texts. *)
Theorem na_text_divides_the_paths (sheet df : TabularDataset) (s : string) :
  frame_of_sheet sheet df ->
  frame_labels_distinct df ->
  In sentinel (columns sheet) ->
  List.length (rows sheet) <= 998 ->
  In (VText s) (sentinel_values sheet) ->
  s <> EmptyString ->
  In s na_values ->
  Forall (fun v => null_or_number (read_cell v) = true)
         (sentinel_values sheet) ->
  AnalyzeWithOpenpyxl.remaining_quantity_rule sheet = Raise TypeError /\
  exists f, ExcelAnalyzer.remaining_quantity_rule df = Ok (Some f).
Proof.
  intros Hread _ Hin Hshort Hv Hs _ Hothers.
  pose proof (sentinel_values_read Hread) as Hvals.
  apply name_in_iff in Hin. split.
  - rewrite openpyxl_rule_spec, Hin. cbn zeta.
    rewrite firstn_all2 by (rewrite sentinel_values_length; exact Hshort).
    assert (Hc : forallb countable (sentinel_values sheet) = false).
    { destruct (forallb countable (sentinel_values sheet)) eqn:E;
        [|reflexivity].
      rewrite forallb_forall in E. specialize (E _ Hv).
      destruct s; [now elim Hs|discriminate]. }
    now rewrite Hc.
  - assert (Hrows : rows df <> []).
    { intro E. apply no_rows_no_values in E. rewrite Hvals in E.
      destruct (sentinel_values sheet); [contradiction|discriminate]. }
    destruct Hread as [Hcols _].
    rewrite pandas_rule_spec, Hcols, Hin, Hvals.
    assert (Hnum : forallb null_or_number (map read_cell (sentinel_values sheet))
                   = true).
    { apply forallb_forall. intros v Hin'.
      apply in_map_iff in Hin' as (w & <- & Hw).
      rewrite Forall_forall in Hothers. now apply Hothers. }
    rewrite Hnum. destruct (rows df); [now elim Hrows|].
    cbn zeta. eexists. reflexivity.
Qed.

Lemma na_text_divides_the_paths_witness :
  frame_of_sheet na_text_quantity (with_cells read_cell na_text_quantity) /\
  sentinel_values (with_cells read_cell na_text_quantity) = [VNull; VNum 4] /\
  AnalyzeWithOpenpyxl.remaining_quantity_rule na_text_quantity
    = Raise TypeError /\
  exists f,
    ExcelAnalyzer.remaining_quantity_rule
      (with_cells read_cell na_text_quantity) = Ok (Some f).
Proof.
  assert (Hf : frame_of_sheet na_text_quantity
                 (with_cells read_cell na_text_quantity))
    by (split; reflexivity).
  assert (Hd : frame_labels_distinct (with_cells read_cell na_text_quantity))
    by distinct_labels.
  assert (Hin : In sentinel (columns na_text_quantity)) by (simpl; auto).
  assert (Hshort : List.length (rows na_text_quantity) <= 998)
    by (simpl; lia).
  assert (Hv : In (VText "n/a") (sentinel_values na_text_quantity))
    by (simpl; auto).
  assert (Hs : "n/a" <> EmptyString) by discriminate.
  assert (Hna : In "n/a" na_values) by (simpl; tauto).
  assert (Ho : Forall (fun v => null_or_number (read_cell v) = true)
                 (sentinel_values na_text_quantity))
    by (repeat constructor).
  split; [exact Hf|]. split; [reflexivity|].
  exact (@na_text_divides_the_paths na_text_quantity
           (with_cells read_cell na_text_quantity) "n/a"
           Hf Hd Hin Hshort Hv Hs Hna Ho).
Defined.

(** ** Row order *)

Lemma count_permutation (p : cell -> bool) (l l' : list cell) :
  Permutation l l' -> count p l = count p l'.
Proof.
  unfold count. induction 1 as [|x l l' _ IH|x y l|l l' l'' _ IH1 _ IH2];
    simpl; try reflexivity.
  - destruct (p x); simpl; now rewrite IH.
  - destruct (p x), (p y); reflexivity.
  - congruence.
Qed.

Lemma forallb_permutation (p : cell -> bool) (l l' : list cell) :
  Permutation l l' -> forallb p l = forallb p l'.
Proof.
  induction 1 as [|x l l' _ IH|x y l|l l' l'' _ IH1 _ IH2];
    simpl; try reflexivity.
  - now rewrite IH.
  - destruct (p x), (p y); reflexivity.
  - congruence.
Qed.

(** The pandas paths do not depend on the order of the rows: a frame and
    any reordering of its rows get the same finding (or the same
    exception). *)
Theorem frame_counts_ignore_row_order (df1 df2 : TabularDataset) :
  columns df1 = columns df2 ->
  Permutation (rows df1) (rows df2) ->
  ExcelAnalyzer.remaining_quantity_rule df1
    = ExcelAnalyzer.remaining_quantity_rule df2 /\
  AnalyzeExcelFiles.remaining_quantity_rule df1
    = AnalyzeExcelFiles.remaining_quantity_rule df2.
Proof.
  intros Hcols Hperm.
  assert (Hvals : Permutation (sentinel_values df1) (sentinel_values df2)).
  { unfold sentinel_values, getitem. rewrite Hcols.
    now apply Permutation_map. }
  rewrite !pandas_rule_spec, !script_rule_spec, Hcols.
  rewrite (forallb_permutation null_or_number Hvals).
  rewrite (count_permutation is_zerob Hvals).
  rewrite (count_permutation is_positiveb Hvals).
  rewrite (Permutation_length Hperm).
  split; [|reflexivity].
  destruct (rows df1) as [|r1 l1], (rows df2) as [|r2 l2]; try reflexivity.
  - apply Permutation_length in Hperm. discriminate.
  - apply Permutation_length in Hperm. discriminate.
Qed.

Lemma frame_counts_ignore_row_order_witness :
  columns late_text_sheet
    = columns (mkDataset ["QuantityRem1"] (rev (rows late_text_sheet))) /\
  Permutation (rows late_text_sheet)
    (rows (mkDataset ["QuantityRem1"] (rev (rows late_text_sheet)))) /\
  AnalyzeExcelFiles.remaining_quantity_rule late_text_sheet
    = AnalyzeExcelFiles.remaining_quantity_rule
        (mkDataset ["QuantityRem1"] (rev (rows late_text_sheet))) /\
  AnalyzeWithOpenpyxl.remaining_quantity_rule late_text_sheet
    <> AnalyzeWithOpenpyxl.remaining_quantity_rule
         (mkDataset ["QuantityRem1"] (rev (rows late_text_sheet))).
Proof.
  assert (Hc : columns late_text_sheet
               = columns (mkDataset ["QuantityRem1"]
                            (rev (rows late_text_sheet)))) by reflexivity.
  assert (Hp : Permutation (rows late_text_sheet)
                 (rows (mkDataset ["QuantityRem1"]
                          (rev (rows late_text_sheet)))))
    by apply Permutation_rev.
  split; [exact Hc|]. split; [exact Hp|]. split.
  - exact (proj2 (@frame_counts_ignore_row_order late_text_sheet
                    (mkDataset ["QuantityRem1"] (rev (rows late_text_sheet)))
                    Hc Hp)).
  - vm_compute. discriminate.
Defined.

(** ** Sample data and sample values *)

Lemma rows_below {B : Type} (g : list cell -> B) (l : list (list cell))
    (first k : nat) :
  k <= List.length l ->
  map (fun row => g (nth (row - first) l [])) (seq first k)
  = firstn k (map g l).
Proof.
  revert first k.
  induction l as [|a l IH]; intros first k Hk; simpl in Hk.
  - replace k with 0 by lia. reflexivity.
  - destruct k as [|k]; [reflexivity|]. simpl.
    rewrite Nat.sub_diag. f_equal.
    rewrite <- (IH (S first) k) by lia.
    apply map_ext_in. intros row Hrow. apply in_seq in Hrow.
    replace (row - first) with (S (row - S first)) by lia.
    reflexivity.
Qed.

Lemma flat_map_optional {A B : Type} (p : B -> bool) (g : A -> B)
    (l : list A) :
  flat_map (fun x => if p (g x) then [g x] else []) l
  = filter p (map g l).
Proof.
  induction l as [|x l IH]; simpl; [reflexivity|].
  rewrite IH. now destruct (p (g x)).
Qed.

Lemma numbered_cells (row : list cell) (cols : list string) (start : nat) :
  map (fun numbered : nat * string =>
         (snd numbered, nth (fst numbered - 1) row VNull))
      (combine (seq (S start) (List.length cols)) cols)
  = combine cols (map (fun j => nth j row VNull)
                      (seq start (List.length cols))).
Proof.
  revert start. induction cols as [|c cols IH]; intro start; simpl;
    [reflexivity|].
  rewrite Nat.sub_0_r. f_equal. apply IH.
Qed.

Lemma index_of_fresh (c : string) (before after : list string) :
  ~ In c before ->
  index_of c (before ++ c :: after) = List.length before.
Proof.
  induction before as [|b before IH]; intro H; simpl.
  - now rewrite String.eqb_refl.
  - destruct (String.eqb_spec c b) as [E|N].
    + elim H. left. now symmetry.
    + f_equal. apply IH. intro Hin. apply H. now right.
Qed.

Lemma labelled_cells (row : list cell) (before cols : list string) :
  NoDup (before ++ cols) ->
  map (fun col => (col, nth (index_of col (before ++ cols)) row VNull)) cols
  = combine cols (map (fun j => nth j row VNull)
                      (seq (List.length before) (List.length cols))).
Proof.
  revert before. induction cols as [|c cols IH]; intros before Hnd;
    [reflexivity|].
  simpl. f_equal.
  - f_equal. f_equal. apply index_of_fresh.
    apply NoDup_remove_2 in Hnd. intro Hin. apply Hnd.
    apply in_or_app. now left.
  - specialize (IH (before ++ [c])).
    rewrite <- app_assoc, length_app in IH. simpl in IH.
    rewrite Nat.add_1_r in IH. now apply IH.
Qed.

Lemma openpyxl_sample_spec (sheet : TabularDataset) :
  openpyxl_sample sheet = map (shown (columns sheet)) (firstn 5 (rows sheet)).
Proof.
  unfold openpyxl_sample, range, max_row, sheet_cell. cbn zeta.
  replace (Nat.min 6 (S (List.length (rows sheet))) + 1 - 2)
    with (Nat.min 5 (List.length (rows sheet))) by lia.
  rewrite <- (@firstn_min_length _ 5 (rows sheet)), <- firstn_map.
  rewrite <- (@rows_below _ (shown (columns sheet)) (rows sheet) 2)
    by apply Nat.le_min_r.
  apply map_ext. intro row. unfold shown, enumerate1.
  rewrite <- numbered_cells.
  rewrite <- (flat_map_optional (fun named => notna (snd named))).
  apply flat_map_ext. now intros [col_idx col_name].
Qed.

Lemma pandas_sample_spec (df : TabularDataset) :
  frame_labels_distinct df ->
  pandas_sample df = map (shown (columns df)) (firstn 5 (rows df)).
Proof.
  intro Hnd. unfold pandas_sample, range, df_len.
  rewrite Nat.sub_0_r.
  rewrite <- (@firstn_min_length _ 5 (rows df)), <- firstn_map.
  rewrite <- (@rows_below _ (shown (columns df)) (rows df) 0)
    by apply Nat.le_min_r.
  apply map_ext. intro idx. rewrite Nat.sub_0_r. unfold shown.
  pose proof (@labelled_cells (nth idx (rows df) []) [] (columns df) Hnd)
    as L.
  change (List.length (@nil string)) with 0 in L.
  change ([] ++ columns df) with (columns df) in L.
  rewrite <- L.
  rewrite <- (flat_map_optional (fun named => notna (snd named))).
  reflexivity.
Qed.

(** Each SAMPLE DATA block shows the first five data rows of the dataset
    its loader delivered, all of them when there are fewer, in order, each
    with its cells that are not null under the name of their column: the
    openpyxl functions on their sheet and, on a frame with distinct labels,
    [analyze_with_pandas] on its frame. *)
Theorem samples_show_first_five_rows (ds : TabularDataset) :
  openpyxl_sample ds = map (shown (columns ds)) (firstn 5 (rows ds)) /\
  List.length (openpyxl_sample ds) = Nat.min 5 (List.length (rows ds)) /\
  (forall shown_row name value,
     In shown_row (openpyxl_sample ds) ->
     In (name, value) shown_row ->
     value <> VNull /\ In name (columns ds)) /\
  (frame_labels_distinct ds ->
   pandas_sample ds = map (shown (columns ds)) (firstn 5 (rows ds)) /\
   List.length (pandas_sample ds) = Nat.min 5 (List.length (rows ds)) /\
   (forall shown_row name value,
      In shown_row (pandas_sample ds) ->
      In (name, value) shown_row ->
      value <> VNull /\ In name (columns ds))).
Proof.
  assert (Hcells : forall shown_row name value,
            In shown_row (map (shown (columns ds)) (firstn 5 (rows ds))) ->
            In (name, value) shown_row ->
            value <> VNull /\ In name (columns ds)).
  { intros shown_row name value Hrow Hcell.
    apply in_map_iff in Hrow as (row & <- & _).
    unfold shown in Hcell. apply filter_In in Hcell as [Hin Hnn].
    split.
    - intros ->. discriminate.
    - now apply in_combine_l in Hin. }
  split; [apply openpyxl_sample_spec|]. split; [|split].
  - rewrite openpyxl_sample_spec, length_map, length_firstn. reflexivity.
  - rewrite openpyxl_sample_spec. exact Hcells.
  - intro Hnd. rewrite (pandas_sample_spec Hnd).
    split; [reflexivity|]. split; [|exact Hcells].
    rewrite length_map, length_firstn. reflexivity.
Qed.

Lemma samples_show_first_five_rows_witness :
  frame_labels_distinct scenario /\
  pandas_sample scenario
    = [[("ArtikelNr", VText "A1"); ("QuantityRem1", VNum 0);
        ("Status", VText "closed")];
       [("ArtikelNr", VText "A2"); ("QuantityRem1", VNum 5);
        ("Status", VText "open")]] /\
  List.length (openpyxl_sample long_sheet) = 5.
Proof.
  assert (Hd : frame_labels_distinct scenario) by distinct_labels.
  split; [exact Hd|]. split.
  - rewrite (proj1 (proj2 (proj2 (proj2
               (samples_show_first_five_rows scenario))) Hd)).
    reflexivity.
  - rewrite (proj1 (proj2 (samples_show_first_five_rows long_sheet))).
    reflexivity.
Defined.

Lemma sample_val_head (s : list cell) :
  sample_val s = match filter notna s with [] => None | v :: _ => Some v end.
Proof.
  unfold sample_val, dropna. now destruct (filter notna s).
Qed.

(** The sample value printed for a candidate column is the first value of
    the column that is not null; it is N/A exactly when every value of the
    column is null, in particular on a frame without rows, so the guarded
    [iloc[0]] is never out of range. *)
Theorem sample_val_is_first_value (s : list cell) :
  match sample_val s with
  | Some v =>
      exists before after,
        s = before ++ v :: after /\ v <> VNull /\
        Forall (fun x => x = VNull) before
  | None => Forall (fun x => x = VNull) s
  end.
Proof.
  rewrite sample_val_head.
  pose proof (chosen_first_match notna s) as H.
  assert (Hnull : forall l, Forall (fun x => notna x = false) l ->
                            Forall (fun x => x = VNull) l).
  { intros l. apply Forall_impl. now intros []. }
  destruct (filter notna s) as [|v rest].
  - now apply Hnull.
  - destruct H as (before & after & E & Hv & Hb).
    exists before, after. split; [exact E|]. split; [|now apply Hnull].
    intros ->. discriminate.
Qed.

(** ** Statistics of the quantity candidates *)

Lemma listed_columns {B : Type} (p : string -> bool) (g : string -> B)
    (l : list string) :
  map fst (flat_map (fun c => if p c then [(c, g c)] else []) l)
  = filter p l.
Proof.
  induction l as [|c l IH]; simpl; [reflexivity|].
  destruct (p c); simpl; now rewrite IH.
Qed.

(** [analyze_with_pandas] prints Min, Max and Mean for exactly those
    Quantity candidates whose column is numeric, in candidate order, each
    computed from that column; a frame without rows gets none. *)
Theorem stats_for_numeric_quantities (df : TabularDataset) :
  map fst (snd (ExcelAnalyzer.column_analysis df))
  = filter (fun col => is_numeric_dtype (getitem df col))
      (filter (name_matches (full_keywords Quantity)) (columns df)) /\
  (forall col stats,
     In (col, stats) (snd (ExcelAnalyzer.column_analysis df)) ->
     stats = describe (getitem df col) /\
     Forall (fun v => null_or_number v = true) (getitem df col)) /\
  (rows df = [] -> snd (ExcelAnalyzer.column_analysis df) = []).
Proof.
  unfold ExcelAnalyzer.column_analysis. cbn [snd].
  rewrite (@comp_matches ["qty"; "quantity"; "menge"; "anzahl"; "rem"]
             (columns df) (full_keywords_lower Quantity)).
  change ["qty"; "quantity"; "menge"; "anzahl"; "rem"]
    with (full_keywords Quantity).
  set (cands := filter (name_matches (full_keywords Quantity)) (columns df)).
  split; [apply listed_columns|]. split.
  - intros col stats Hin. apply in_flat_map in Hin as (c & _ & Hc).
    destruct (is_numeric_dtype (getitem df c)) eqn:E; [|contradiction].
    destruct Hc as [Hc|[]]. injection Hc as -> <-.
    split; [reflexivity|].
    unfold is_numeric_dtype in E.
    destruct (getitem df col) as [|v l]; [constructor|].
    apply Forall_forall. intros x Hx.
    rewrite forallb_forall in E. specialize (E x Hx). now destruct x.
  - intro Hrows. unfold getitem. rewrite Hrows. simpl.
    induction cands as [|c l IH]; [reflexivity|exact IH].
Qed.

Lemma stats_for_numeric_quantities_witness :
  rows header_only = [] /\
  snd (ExcelAnalyzer.column_analysis header_only) = [] /\
  In ("QuantityRem1", describe (getitem scenario "QuantityRem1"))
     (snd (ExcelAnalyzer.column_analysis scenario)).
Proof.
  assert (Hrows : rows header_only = []) by reflexivity.
  split; [exact Hrows|].
  split;
    [exact (proj2 (proj2 (stats_for_numeric_quantities header_only)) Hrows)|].
  simpl. auto.
Defined.

(** ** Percentages are numbers *)

Section PercentSign.

Local Open Scope Z_scope.

Lemma shr_1_nonneg (mrs : shr_record) :
  0 <= shr_m mrs -> 0 <= shr_m (shr_1 mrs).
Proof.
  destruct mrs as [m r s]. destruct m as [|[p|p|]|p]; simpl; lia.
Qed.

Lemma iter_pos_keeps {A : Type} (P : A -> Prop) (f : A -> A) :
  (forall x, P x -> P (f x)) ->
  forall n x, P x -> P (iter_pos f n x).
Proof.
  intros Hf. induction n as [n IH|n IH|]; intros x Hx; simpl; auto.
Qed.

Lemma shr_nonneg (mrs : shr_record) (e n : Z) :
  0 <= shr_m mrs -> 0 <= shr_m (fst (shr mrs e n)).
Proof.
  intro H. destruct n as [|p|p]; simpl; try assumption.
  apply (iter_pos_keeps (fun r => 0 <= shr_m r)); [apply shr_1_nonneg|exact H].
Qed.

Lemma shr_fexp_nonneg (m e : Z) (l : location) :
  0 <= m -> 0 <= shr_m (fst (shr_fexp prec emax m e l)).
Proof.
  intro H. unfold shr_fexp. apply shr_nonneg.
  destruct l as [|[| |]]; exact H.
Qed.

Lemma round_nearest_even_nonneg (m : Z) (l : location) :
  0 <= m -> 0 <= round_nearest_even m l.
Proof.
  intro H. destruct l as [|[| |]]; simpl; try lia.
  destruct (Z.even m); lia.
Qed.

Lemma round_keeps_sign (s : bool) (m e : Z) (l : location) :
  0 <= m ->
  nonneg_float (binary_round_aux prec emax s m e l) = negb s.
Proof.
  intro H. unfold binary_round_aux.
  pose proof (shr_fexp_nonneg e l H) as H1.
  destruct (shr_fexp prec emax m e l) as [mrs' e'].
  cbn [fst] in H1.
  pose proof (shr_fexp_nonneg e' loc_Exact
                (round_nearest_even_nonneg (loc_of_shr_record mrs') H1)) as H2.
  destruct (shr_fexp prec emax
              (round_nearest_even (shr_m mrs') (loc_of_shr_record mrs'))
              e' loc_Exact) as [mrs'' e''].
  cbn [fst] in H2.
  destruct (shr_m mrs'') as [|p|p]; try lia; [reflexivity|].
  destruct (e'' <=? emax - prec); reflexivity.
Qed.

Lemma float_of_count_nonneg (n : nat) :
  nonneg_float (float_of_int (Z.of_nat n)) = true.
Proof.
  unfold float_of_int, binary_normalize.
  destruct (Z.of_nat n) as [|p|p] eqn:E; try lia; [reflexivity|].
  unfold binary_round.
  destruct (shl_align p 0 (fexp prec emax (Zpos (digits2_pos p) + 0)))
    as [mz ez].
  now rewrite round_keeps_sign.
Qed.

Lemma div_core_nonneg (mx my : positive) (ex ey : Z) :
  0 <= fst (fst (SFdiv_core_binary prec emax (Zpos mx) ex (Zpos my) ey)).
Proof.
  unfold SFdiv_core_binary. cbn zeta.
  set (s := ex - ey - _).
  set (m' := match s with Z0 => Zpos mx | Zpos _ => Z.shiftl (Zpos mx) s
                     | Zneg _ => 0 end).
  assert (Hm : 0 <= m').
  { unfold m'. destruct s; try lia. apply Z.shiftl_nonneg. lia. }
  pose proof (Z.div_pos m' (Zpos my) Hm ltac:(lia)) as Hq.
  unfold Z.div in Hq.
  destruct (Z.div_eucl m' (Zpos my)) as [q r]. exact Hq.
Qed.

Lemma times_hundred_nonneg (y : spec_float) :
  nonneg_float y = true ->
  nonneg_float (fmul y (float_of_int 100)) = true.
Proof.
  intro Hy.
  destruct (@float_of_small_count 100 eq_refl) as (m & e & ->).
  unfold fmul.
  destruct y as [s|s| |s my ey]; simpl in Hy; try discriminate;
    destruct s; try discriminate; try reflexivity.
  cbn [SFmul xorb]. now rewrite round_keeps_sign.
Qed.

Lemma quotient_nonneg (x : spec_float) (m : positive) (e : Z) :
  nonneg_float x = true ->
  nonneg_float (SFdiv prec emax x (S754_finite false m e)) = true.
Proof.
  intro Hx.
  destruct x as [s|s| |s mx ex]; simpl in Hx; try discriminate;
    destruct s; try discriminate; try reflexivity.
  cbn [SFdiv xorb].
  pose proof (div_core_nonneg mx m ex e) as Hq.
  destruct (SFdiv_core_binary prec emax (Zpos mx) ex (Zpos m) e)
    as [[mz ez] lz].
  cbn [fst] in Hq. now rewrite round_keeps_sign.
Qed.

End PercentSign.

(** Over a frame with at least one and fewer than 2^53 rows a percentage
    is never NaN and never negative: it is zero, a finite double or
    infinity, with the sign bit clear. *)
Theorem percentages_are_nonnegative_numbers (count total : nat)
    (x : spec_float) :
  0 < total ->
  (Z.of_nat total < 2 ^ 53)%Z ->
  percent count total = Ok x ->
  nonneg_float x = true.
Proof.
  intros Hpos Hsmall. rewrite percent_spec.
  destruct total as [|n]; [lia|].
  destruct (Z.of_nat (S n)) as [|p|p] eqn:E; try lia.
  destruct (@float_of_small_count p Hsmall) as (m & e & ->).
  intro H. injection H as <-.
  apply times_hundred_nonneg, quotient_nonneg, float_of_count_nonneg.
Qed.

Lemma percentages_are_nonnegative_numbers_witness :
  0 < 3 /\ (Z.of_nat 3 < 2 ^ 53)%Z /\
  (exists x, percent 1 3 = Ok x /\ nonneg_float x = true).
Proof.
  assert (Hpos : 0 < 3) by lia.
  assert (Hsmall : (Z.of_nat 3 < 2 ^ 53)%Z) by reflexivity.
  split; [exact Hpos|]. split; [exact Hsmall|].
  destruct (percent 1 3) as [x|e] eqn:E; [|vm_compute in E; discriminate].
  exists x. split; [reflexivity|].
  exact (@percentages_are_nonnegative_numbers 1 3 x Hpos Hsmall E).
Defined.
